(** * Task orchestration and AI-draft generation: a shallow embedding

    The development follows the backend's modules:
    - [app/db/models/tasks.py]      the task, draft, edit and QA records;
    - [app/core/config.py]          the settings the workers read;
    - [app/services/draft_service.py]  prompt construction, cost, provider call;
    - [app/db/session.py]           the engine and its connection pool;
    - [app/workers/tasks_draft.py]  the generation worker and its retries;
    - [app/workers/tasks_parse.py]  task creation;
    - [app/api/v1/routes_tasks.py], [routes_drafts.py]  manual retry and
      manual generation.

    The database is a value of type [World] threaded through every
    operation; a commit is the point where a new [World] is produced, and an
    exception leaves the last committed one.  The worker module is modelled
    as it stands: its query names [selectinload], which it never imports,
    and each delivery runs its coroutines in event loops of their own over
    one pooled engine per process.  The review operations
    (recording edits and QA checks) are not in the source and are modelled
    from the specification, in module [QA].  The properties come after the
    definitions, one section per subject. *)

From stdpp Require Import base option list gmap strings pretty.
From Stdlib Require Import ZArith Floats Ascii.

Local Open Scope string_scope.
Local Open Scope Z_scope.

(** Decimal literals such as [0.00015] denote the nearest binary64 number,
    as they do in Python. *)
Set Warnings "-inexact-float".

(** ** app/db/models/tasks.py *)

Inductive TaskStatus :=
  | AWAITING_DRAFT
  | READY_FOR_ANNOTATION
  | IN_PROGRESS
  | COMPLETED
  | QA_PENDING
  | QA_DONE
  | REASSIGNED
  | DRAFT_FAILED.

Inductive DraftStatus :=
  | QUEUED
  | GENERATING
  | SUCCEEDED
  | FAILED.

Inductive QAResult :=
  | PASS
  | FAIL.

#[global] Instance TaskStatus_eq_dec : EqDecision TaskStatus.
Proof. solve_decision. Defined.
#[global] Instance DraftStatus_eq_dec : EqDecision DraftStatus.
Proof. solve_decision. Defined.
#[global] Instance QAResult_eq_dec : EqDecision QAResult.
Proof. solve_decision. Defined.

(** Primary keys are UUIDs; [uuid.uuid4] values are drawn from a supply kept
    in the world.  [str_uuid] is Python's [str] of the key. *)
Definition UUID := nat.
Definition str_uuid (u : UUID) : string := pretty u.

(** [class Task].  The primary key is the key of the [tasks] table below.
    The timestamp columns ([created_at], [updated_at], [assigned_at],
    [started_at], [completed_at]) are not modelled: every UPDATE of a row
    moves its [updated_at] ([onupdate], base.py 62-66), so two records
    equal here are equal in the columns listed and may differ in that
    one. *)
Record Task := mkTask {
  table_id : UUID;
  project_id : UUID;
  assigned_to : option UUID;
  status : TaskStatus;
  draft_status : DraftStatus;
  priority : Z;
  allocation_hold : bool;
  last_error : option string;
  retry_count : Z
}.

(** A JSON scalar, as stored in the JSONB columns [usage] and [trace_json]. *)
Inductive JValue :=
  | JBool (b : bool)
  | JInt (z : Z)
  | JFloat (f : float)
  | JStr (s : string).

(** [class AIDraft].  [draft_text] is declared [nullable=False]; the value
    handed to the constructor may still be [None], which the database
    refuses at commit. *)
Record AIDraft := mkAIDraft {
  draft_id : UUID;
  task_id : UUID;
  model_name : string;
  prompt_version : string;
  prompt_hash : string;
  draft_text : option string;
  trace_json : option (gmap string JValue);
  usage : gmap string JValue;
  generation_time_ms : Z;
  temperature : float
}.

(** The [input_tokens], [output_tokens] and [cost_usd] properties of
    [AIDraft]: [self.usage.get(key, default)]. *)
Definition input_tokens (d : AIDraft) : JValue :=
  default (JInt 0) (usage d !! "input_tokens").
Definition output_tokens (d : AIDraft) : JValue :=
  default (JInt 0) (usage d !! "output_tokens").
Definition cost_usd (d : AIDraft) : JValue :=
  default (JFloat 0) (usage d !! "cost_usd").

(** [class HumanEdit]. *)
Record HumanEdit := mkHumanEdit {
  he_id : UUID;
  he_draft_id : UUID;
  he_user_id : UUID;
  edited_text : string;
  edit_reason : option string;
  time_spent_minutes : option Z
}.

(** [class QACheck]. *)
Record QACheck := mkQACheck {
  qa_id : UUID;
  qa_edit_id : UUID;
  reviewer_id : UUID;
  result : QAResult;
  comments : option string;
  review_time_minutes : option Z
}.

(** ** The unified table schema (the [schema_json] column of a parsed table)

    A JSON object read with [.get(key, default)]: an absent key is [None]. *)
Record Cell := mkCell {
  row : option Z;
  col : option Z;
  text : option string;
  is_header : option bool
}.

Record TableMeta := mkTableMeta {
  detector : option string;
  confidence : option float
}.

Record TableSchema := mkTableSchema {
  meta : option TableMeta;
  cells : option (list Cell);
  n_rows : option Z;
  n_cols : option Z;
  page : option Z
}.

(** ** The persistent store *)

(** [tasks] is keyed by primary key; [ai_drafts], [human_edits] and
    [qa_checks] keep rows in insertion order, oldest first;
    [parsed_tables] maps a parsed table to its [schema_json]; [projects]
    maps a project to its organization (all the routes read of a project);
    [next_uuid] is the supply of fresh keys; [provider_log] records every
    request sent to the external generation provider as (model, prompt).

    [pooled] is what the worker processes keep between two coroutines: the
    set of processes whose engine pool holds a database connection (see
    [app/db/session.py] below). *)
Definition Pid := nat.

Record World := mkWorld {
  tasks : gmap UUID Task;
  ai_drafts : list AIDraft;
  human_edits : list HumanEdit;
  qa_checks : list QACheck;
  parsed_tables : gmap UUID TableSchema;
  projects : gmap UUID UUID;
  next_uuid : UUID;
  provider_log : list (string * string);
  pooled : gset Pid
}.

Definition set_tasks (f : gmap UUID Task -> gmap UUID Task) (w : World) : World :=
  mkWorld (f (tasks w)) (ai_drafts w) (human_edits w) (qa_checks w)
          (parsed_tables w) (projects w) (next_uuid w) (provider_log w) (pooled w).

Definition set_ai_drafts (f : list AIDraft -> list AIDraft) (w : World) : World :=
  mkWorld (tasks w) (f (ai_drafts w)) (human_edits w) (qa_checks w)
          (parsed_tables w) (projects w) (next_uuid w) (provider_log w) (pooled w).

Definition set_parsed_tables
    (f : gmap UUID TableSchema -> gmap UUID TableSchema) (w : World) : World :=
  mkWorld (tasks w) (ai_drafts w) (human_edits w) (qa_checks w)
          (f (parsed_tables w)) (projects w) (next_uuid w) (provider_log w) (pooled w).

Definition log_provider_call (model prompt : string) (w : World) : World :=
  mkWorld (tasks w) (ai_drafts w) (human_edits w) (qa_checks w)
          (parsed_tables w) (projects w) (next_uuid w)
          (provider_log w ++ [(model, prompt)])%list (pooled w).

Definition set_pooled (f : gset Pid -> gset Pid) (w : World) : World :=
  mkWorld (tasks w) (ai_drafts w) (human_edits w) (qa_checks w)
          (parsed_tables w) (projects w) (next_uuid w) (provider_log w)
          (f (pooled w)).

Definition take_uuid (w : World) : UUID * World :=
  (next_uuid w,
   mkWorld (tasks w) (ai_drafts w) (human_edits w) (qa_checks w)
           (parsed_tables w) (projects w) (S (next_uuid w)) (provider_log w)
           (pooled w)).

(** Field updates on a loaded task object. *)
Definition with_status (s : TaskStatus) (t : Task) : Task :=
  mkTask (table_id t) (project_id t) (assigned_to t) s (draft_status t)
         (priority t) (allocation_hold t) (last_error t) (retry_count t).
Definition with_draft_status (d : DraftStatus) (t : Task) : Task :=
  mkTask (table_id t) (project_id t) (assigned_to t) (status t) d
         (priority t) (allocation_hold t) (last_error t) (retry_count t).
Definition with_allocation_hold (b : bool) (t : Task) : Task :=
  mkTask (table_id t) (project_id t) (assigned_to t) (status t) (draft_status t)
         (priority t) b (last_error t) (retry_count t).
Definition with_last_error (e : option string) (t : Task) : Task :=
  mkTask (table_id t) (project_id t) (assigned_to t) (status t) (draft_status t)
         (priority t) (allocation_hold t) e (retry_count t).
Definition with_retry_count (n : Z) (t : Task) : Task :=
  mkTask (table_id t) (project_id t) (assigned_to t) (status t) (draft_status t)
         (priority t) (allocation_hold t) (last_error t) n.

(** [task.ai_draft]: the row of [ai_drafts] that references the task
    ([uselist=False]). *)
Definition ai_draft_of (w : World) (tid : UUID) : option AIDraft :=
  List.find (fun d => bool_decide (task_id d = tid)) (ai_drafts w).

(** ** app/api/v1/routes_tasks.py *)

Inductive Detail :=
  | TaskNotFoundOrDenied
  | CannotBeRetried (current : DraftStatus)
  | DraftAlreadyExists
  | CannotGenerateInStatus (current : TaskStatus).

(** [HTTPException(status_code, detail)]; the detail keeps the value that
    the message interpolates. *)
Record HTTPException := mkHTTPException {
  status_code : nat;
  detail : Detail
}.

Definition HTTP_400_BAD_REQUEST : nat := 400.
Definition HTTP_404_NOT_FOUND : nat := 404.

(** The access-controlled load shared by the routes:
    [select(Task).join(Project).where(Task.id == .., Project.organization_id == ..)]. *)
Definition load_task_for_org (w : World) (tid org : UUID) : option Task :=
  t ← tasks w !! tid;
  o ← projects w !! project_id t;
  if bool_decide (o = org) then Some t else None.

Record RetryResponse := mkRetryResponse {
  rr_task_id : UUID;
  new_status : TaskStatus;
  new_draft_status : DraftStatus
}.

(** [retry_draft_generation], lines 252-317. *)
Definition retry_draft_generation (tid org : UUID) (w : World)
  : World * (HTTPException + RetryResponse) :=
  match load_task_for_org w tid org with
  | None => (w, inl (mkHTTPException HTTP_404_NOT_FOUND TaskNotFoundOrDenied))
  | Some task =>
      if bool_decide (draft_status task ≠ FAILED) then
        (w, inl (mkHTTPException HTTP_400_BAD_REQUEST
                   (CannotBeRetried (draft_status task))))
      else
        let task := with_status AWAITING_DRAFT task in
        let task := with_draft_status QUEUED task in
        let task := with_last_error None task in
        let task := with_allocation_hold true task in
        let w := set_tasks (insert tid task) w in
        (w, inr (mkRetryResponse tid (status task) (draft_status task)))
  end.

(** ** Python values used by the services *)

Definition nl : string := String (Ascii.ascii_of_nat 10) "".

(** [len] of a [str] counts code points; strings here are UTF-8 byte
    sequences, so continuation bytes (10xxxxxx) are skipped. *)
Definition is_continuation (c : ascii) : bool :=
  let n := N_of_ascii c in ((128 <=? n) && (n <? 192))%N.

Fixpoint py_len (s : string) : Z :=
  match s with
  | EmptyString => 0
  | String c s' => (if is_continuation c then 0 else 1) + py_len s'
  end.

(** [s[:n]]: the first [n] code points. *)
Fixpoint py_take (n : nat) (s : string) : string :=
  match s with
  | EmptyString => EmptyString
  | String c s' =>
      if is_continuation c then String c (py_take n s')
      else match n with
           | O => EmptyString
           | S n' => String c (py_take n' s')
           end
  end.

(** [str.strip()] removes the characters that [str.isspace] accepts from
    both ends.  In UTF-8 these are the bytes 9-13 and 28-32; U+0085 and
    U+00A0 (C2 85, C2 A0); U+1680 (E1 9A 80); U+2000-U+200A, U+2028,
    U+2029 and U+202F (E2 80 80-8A, A8, A9, AF); U+205F (E2 81 9F) and
    U+3000 (E3 80 80). *)
Definition is_space (c : ascii) : bool :=
  let n := N_of_ascii c in
  ((n =? 32) || ((9 <=? n) && (n <=? 13)) || ((28 <=? n) && (n <=? 31)))%N.

Definition is_space2 (a b : ascii) : bool :=
  ((N_of_ascii a =? 194) && ((N_of_ascii b =? 133) || (N_of_ascii b =? 160)))%N.

Definition is_space3 (a b c : ascii) : bool :=
  let '(x, y, z) := (N_of_ascii a, N_of_ascii b, N_of_ascii c) in
  (((x =? 225) && (y =? 154) && (z =? 128))
   || ((x =? 226) && (y =? 128)
       && (((128 <=? z) && (z <=? 138)) || (z =? 168) || (z =? 169) || (z =? 175)))
   || ((x =? 226) && (y =? 129) && (z =? 159))
   || ((x =? 227) && (y =? 128) && (z =? 128)))%N.

(** The string after its first character, when that is white space. *)
Definition skip_space (s : string) : option string :=
  match s with
  | EmptyString => None
  | String a s1 =>
      if is_space a then Some s1
      else match s1 with
           | EmptyString => None
           | String b s2 =>
               if is_space2 a b then Some s2
               else match s2 with
                    | EmptyString => None
                    | String c s3 => if is_space3 a b c then Some s3 else None
                    end
           end
  end.

Fixpoint lstrip_aux (fuel : nat) (s : string) : string :=
  match fuel with
  | O => s
  | S fuel' =>
      match skip_space s with
      | Some s' => lstrip_aux fuel' s'
      | None => s
      end
  end.

Definition lstrip (s : string) : string := lstrip_aux (String.length s) s.

(** The same from the end, on the bytes in reverse order: the last
    character of well-formed UTF-8 is found from its last bytes. *)
Definition skip_space_rev (r : list ascii) : option (list ascii) :=
  match r with
  | c :: r1 =>
      if is_space c then Some r1
      else match r1 with
           | b :: r2 =>
               if is_space2 b c then Some r2
               else match r2 with
                    | a :: r3 => if is_space3 a b c then Some r3 else None
                    | [] => None
                    end
           | [] => None
           end
  | [] => None
  end.

Fixpoint rstrip_aux (fuel : nat) (r : list ascii) : list ascii :=
  match fuel with
  | O => r
  | S fuel' =>
      match skip_space_rev r with
      | Some r' => rstrip_aux fuel' r'
      | None => r
      end
  end.

Definition rstrip (s : string) : string :=
  let r := rev (String.list_ascii_of_string s) in
  String.string_of_list_ascii (rev (rstrip_aux (length r) r)).

Definition strip (s : string) : string := rstrip (lstrip s).

(** [sep.join(l)]. *)
Fixpoint join (sep : string) (l : list string) : string :=
  match l with
  | [] => ""
  | [x] => x
  | x :: l' => x +:+ sep +:+ join sep l'
  end.

(** [sorted(l, key=key)]: stable, ascending. *)
Fixpoint insert_by {A} (key : A -> Z) (x : A) (l : list A) : list A :=
  match l with
  | [] => [x]
  | y :: l' => if bool_decide (key x ≤ key y) then x :: l else y :: insert_by key x l'
  end.

Definition sorted {A} (key : A -> Z) (l : list A) : list A :=
  foldr (insert_by key) [] l.

(** *** binary64 helpers

    [float_of_Z z] is [float(z)], rounded to nearest-even.
    [rne_scaled m e n] is the integer nearest (ties to even) to
    [m * 2^e * 10^n], the exact value of a binary64 number scaled by [10^n]:
    this is how CPython rounds a float to [n] decimals, both in
    [round(x, n)] and in the format [.nf]. *)
Definition float_of_Z (z : Z) : float :=
  SF2Prim (binary_normalize prec emax z 0 false).

Definition rne_quot (num den : Z) : Z :=
  let q := num `div` den in
  let r := num `mod` den in
  if bool_decide (den < 2 * r) then q + 1
  else if bool_decide (2 * r = den) then (if Z.even q then q else q + 1)
  else q.

Definition rne_scaled (m : positive) (e : Z) (n : nat) : Z :=
  if bool_decide (0 ≤ e) then Z.pos m * 2 ^ e * 10 ^ Z.of_nat n
  else rne_quot (Z.pos m * 10 ^ Z.of_nat n) (2 ^ (- e)).

(** [a / b] on two integers, [b > 0]: the binary64 number nearest to the
    exact quotient, ties to even.  The quotient is taken with at least 55
    significant bits and a sticky bit for the remainder, then rounded
    once.  (Python raises [OverflowError] where this yields infinity, beyond
    1.7e308.) *)
Definition int_true_div (a b : Z) : float :=
  let a' := Z.abs a in
  if bool_decide (a' = 0) then 0%float
  else
    let k := Z.max 0 (Z.log2 b - Z.log2 a' + 55) in
    let n := a' * 2 ^ k in
    let m := 2 * (n `div` b) + (if bool_decide (n `mod` b = 0) then 0 else 1) in
    let r := SF2Prim (binary_normalize prec emax m (- k - 1) false) in
    if bool_decide (a < 0) then (- r)%float else r.

(** [round(x, n)], [n >= 0]: the decimal [r * 10^-n] nearest to [x],
    converted back to the nearest binary64. *)
Definition py_round (x : float) (n : nat) : float :=
  match Prim2SF x with
  | S754_finite s m e =>
      let r := int_true_div (rne_scaled m e n) (10 ^ Z.of_nat n) in
      if s then (- r)%float else r
  | _ => x
  end.

Fixpoint zero_pad_aux (fuel width : nat) (s : string) : string :=
  match fuel with
  | O => s
  | S fuel' =>
      if bool_decide (String.length s < width)%nat
      then zero_pad_aux fuel' width ("0" +:+ s) else s
  end.

Definition zero_pad (width : nat) (s : string) : string :=
  zero_pad_aux width width s.

(** [format(x, '.nf')] for [n >= 1]. *)
Definition format_f (x : float) (n : nat) : string :=
  match Prim2SF x with
  | S754_nan => "nan"
  | S754_infinity s => if s then "-inf" else "inf"
  | S754_zero s =>
      (if s then "-" else "") +:+ "0." +:+ zero_pad n ""
  | S754_finite s m e =>
      let r := rne_scaled m e n in
      let p := 10 ^ Z.of_nat n in
      (if s then "-" else "") +:+ pretty (r `div` p) +:+ "." +:+
        zero_pad n (pretty (r `mod` p))
  end.

(** ** app/core/config.py *)

Record Settings := mkSettings {
  OPENAI_API_KEY : option string;
  DEFAULT_LLM_MODEL : string;
  DRAFT_RETRY_MAX_ATTEMPTS : Z;
  DRAFT_RETRY_BACKOFF_FACTOR : float
}.

(** The field defaults of [class Settings]. *)
Definition default_settings : Settings :=
  mkSettings None "gpt-4o-mini" 3 2.0%float.

(** ** app/services/draft_service.py *)

Inductive Exception :=
  | NameError (message : string)
  | ValueError (message : string)
  | IntegrityError (message : string)
  | RuntimeError (message : string)
  | MissingGreenlet (message : string)
  | DBAPIError (message : string).

(** [str(exc)]. *)
Definition str_exc (e : Exception) : string :=
  match e with
  | NameError m | ValueError m | IntegrityError m | RuntimeError m
  | MissingGreenlet m | DBAPIError m => m
  end.

(** What a route ends with when it gives no response: an [HTTPException]
    it raises itself, or an exception that nothing in the route handles. *)
Inductive Failure :=
  | Http (e : HTTPException)
  | Unhandled (exc : Exception).

(** What the provider's chat-completion endpoint answers: a completion with
    its usage counters, or any failure of the call. *)
Inductive ProviderReply :=
  | Completion (content : option string)
               (prompt_tokens completion_tokens total_tokens : Z)
  | ProviderError (message : string).

(** The provider is an oracle: the reply may depend on how many requests
    were sent before, on the model and on the prompt. *)
Definition Provider := nat -> string -> string -> ProviderReply.

Record Rates := mkRates {
  input : float;
  output : float
}.

Record DraftService := mkDraftService {
  client : bool;
  svc_prompt_version : string;
  token_costs : gmap string Rates
}.

(** [DraftService.__init__]: a client exists iff the key is truthy. *)
Definition DraftService_init (settings : Settings) : DraftService :=
  mkDraftService
    (match OPENAI_API_KEY settings with
     | Some k => negb (bool_decide (k = ""))
     | None => false
     end)
    "v1.0"
    (<["gpt-4o-mini" := mkRates 0.00015 0.0006]>
       (<["gpt-4o" := mkRates 0.005 0.015]>
          (<["gpt-3.5-turbo" := mkRates 0.0005 0.0015]> ∅)))%float.

(** [rows_by_number]: cells grouped by row number, each group in the order
    of [cells]. *)
Definition rows_by_number (cs : list Cell) : gmap Z (list Cell) :=
  foldl (fun m cell =>
           let row_num := default 0 (row cell) in
           <[row_num := (default [] (m !! row_num) ++ [cell])%list]> m)
        ∅ cs.

Definition row_texts (row_cells : list Cell) : list string :=
  (fun cell => strip (default "" (text cell)))
    <$> sorted (fun x => default 0 (col x)) row_cells.

Definition sample_rows (by_row : gmap Z (list Cell)) : list (list string) :=
  (fun row_num => row_texts (default [] (by_row !! row_num)))
    <$> take 3 (drop 1 (sorted (fun k => k) (fst <$> map_to_list by_row))).

Fixpoint sample_row_lines (i : Z) (rows : list (list string)) : string :=
  match rows with
  | [] => ""
  | r :: rows' =>
      "Row " +:+ pretty i +:+ ": " +:+ join " | " r +:+ nl +:+
      sample_row_lines (i + 1) rows'
  end.

Definition str_page (p : option Z) : string :=
  match p with
  | Some n => pretty n
  | None => "unknown"
  end.

(** [DraftService.create_prompt], lines 33-129. *)
Definition create_prompt (table_schema : TableSchema) : string :=
  let meta_ := default (mkTableMeta None None) (meta table_schema) in
  let cells_ := default [] (cells table_schema) in
  let n_rows_ := default 0 (n_rows table_schema) in
  let n_cols_ := default 0 (n_cols table_schema) in
  let by_row := rows_by_number cells_ in
  let header_row := default [] (by_row !! 0) in
  let header_texts := row_texts header_row in
  let rows := sample_rows by_row in
  let prompt :=
    join nl [
      "Convert the following table schema to a faithful, concise natural language description for compliance guidelines.";
      "";
      "INSTRUCTIONS:";
      "- Analyze the table structure and content carefully";
      "- Generate a clear description that preserves exact numbers, units, and ranges";
      "- Identify key rules, patterns, and exceptions";
      "- Do NOT fabricate or assume information not present in the data";
      "- Structure your response in the specified sections below";
      "";
      "TABLE INFORMATION:";
      "- Dimensions: " +:+ pretty n_rows_ +:+ " rows × " +:+ pretty n_cols_ +:+ " columns";
      "- Detection method: " +:+ default "unknown" (detector meta_);
      "- Confidence: " +:+ format_f (default 0%float (confidence meta_)) 2;
      "- Page number: " +:+ str_page (page table_schema);
      "";
      "HEADER ROW:";
      match header_texts with
      | [] => "No clear headers identified"
      | _ => join " | " header_texts
      end;
      "";
      "SAMPLE DATA ROWS:";
      ""
    ] in
  let prompt := prompt +:+ sample_row_lines 1 rows in
  let prompt :=
    match rows with
    | [] => prompt +:+ "No data rows available" +:+ nl
    | _ => prompt
    end in
  prompt +:+
    join nl [
      "";
      "RESPONSE FORMAT:";
      "Structure your response with these sections:";
      "";
      "**Purpose**";
      "[Brief description of what this table contains and its purpose]";
      "";
      "**Structure**";
      "[Description of the table organization, columns, and data types]";
      "";
      "**Key Rules**";
      "[Main rules, requirements, or patterns identified in the data]";
      "";
      "**Exceptions**";
      "[Any exceptions, special cases, or variations noted]";
      "";
      "**Data Quality Notes**";
      "[Any observations about data completeness, consistency, or quality issues]";
      "";
      "Generate the description now:"
    ].

(** [DraftService._calculate_cost], lines 231-238.  [tokens / 1000] is
    Python's true division of two integers. *)
Definition _calculate_cost (self : DraftService) (model : string)
    (input_tokens output_tokens : Z) : float :=
  let costs := default (mkRates 0.001 0.002) (token_costs self !! model) in
  let input_cost := (int_true_div input_tokens 1000 * input costs)%float in
  let output_cost := (int_true_div output_tokens 1000 * output costs)%float in
  py_round (input_cost + output_cost)%float 6.

(** The dict returned by [generate_draft] and [_generate_mock_draft]. *)
Record DraftResult := mkDraftResult {
  dr_text : option string;
  dr_model : string;
  dr_prompt_version : string;
  dr_temperature : float;
  dr_usage : gmap string JValue;
  dr_trace : gmap string JValue
}.

Definition mock_text (table_schema : TableSchema) : string :=
  let n_rows_ := default 0 (n_rows table_schema) in
  let n_cols_ := default 0 (n_cols table_schema) in
  let detector_ :=
    default "unknown" (detector (default (mkTableMeta None None) (meta table_schema))) in
  join nl [
    "**Purpose**";
    "This table contains structured data extracted from a document using " +:+ detector_ +:+ " detection method.";
    "";
    "**Structure**";
    "The table has " +:+ pretty n_rows_ +:+ " rows and " +:+ pretty n_cols_ +:+ " columns. Data appears to be organized in a tabular format with headers and data rows.";
    "";
    "**Key Rules**";
    "- Table structure follows standard row/column format";
    "- Data extraction confidence varies by detection method";
    "- Column headers provide context for data interpretation";
    "";
    "**Exceptions**";
    "- Some cells may contain merged content spanning multiple rows or columns";
    "- Data quality depends on source document clarity and extraction method";
    "";
    "**Data Quality Notes**";
    "This is a mock draft generated for development purposes. In production, this would contain detailed analysis of the actual table content and structure based on the extracted schema."
  ].

(** [DraftService._generate_mock_draft], lines 240-285. *)
Definition _generate_mock_draft (self : DraftService)
    (table_schema : TableSchema) (model : string) : DraftResult :=
  let mock := mock_text table_schema in
  let estimated_input_tokens := py_len (create_prompt table_schema) `div` 4 in
  let estimated_output_tokens := py_len mock `div` 4 in
  mkDraftResult
    (Some mock) model (svc_prompt_version self) 0.7%float
    (<["input_tokens" := JInt estimated_input_tokens]>
       (<["output_tokens" := JInt estimated_output_tokens]>
          (<["total_tokens" := JInt (estimated_input_tokens + estimated_output_tokens)]>
             (<["cost_usd" := JFloat 0.001]> ∅))))
    (<["mock" := JBool true]>
       (<["reason" := JStr "No API key configured"]> ∅)).

Definition prompt_preview (prompt : string) : string :=
  if bool_decide (200 < py_len prompt) then py_take 200 prompt +:+ "..." else prompt.

(** [DraftService.generate_draft], lines 131-229.  Without a client the mock
    draft is returned and nothing is sent; with one, the request is logged
    and any failure inside the [try] block is re-raised as [ValueError]. *)
Definition generate_draft (self : DraftService) (provider : Provider)
    (table_schema : TableSchema) (model : string) (temperature_ : float)
    (max_tokens : Z) (w : World) : World * (Exception + DraftResult) :=
  if negb (client self) then
    (w, inr (_generate_mock_draft self table_schema model))
  else
    let prompt := create_prompt table_schema in
    let reply := provider (length (provider_log w)) model prompt in
    let w := log_provider_call model prompt w in
    match reply with
    | ProviderError e =>
        (w, inl (ValueError ("Failed to generate AI draft: " +:+ e)))
    | Completion draft_text_ prompt_tokens completion_tokens total_tokens =>
        let cost := _calculate_cost self model prompt_tokens completion_tokens in
        let trace :=
          <["prompt_tokens" := JInt prompt_tokens]>
            (<["completion_tokens" := JInt completion_tokens]>
               (<["total_tokens" := JInt total_tokens]>
                  (<["model" := JStr model]>
                     (<["temperature" := JFloat temperature_]>
                        (<["prompt_preview" := JStr (prompt_preview prompt)]> ∅))))) in
        (w, inr (mkDraftResult
                   draft_text_ model (svc_prompt_version self) temperature_
                   (<["input_tokens" := JInt prompt_tokens]>
                      (<["output_tokens" := JInt completion_tokens]>
                         (<["total_tokens" := JInt total_tokens]>
                            (<["cost_usd" := JFloat cost]> ∅))))
                   trace))
    end.

(** ** app/workers/tasks_draft.py *)

(** What the worker module reads from outside the database.

    - [settings]: the cached [Settings] instance.
    - [selectinload_bound]: whether the name [selectinload] resolves when
      [_generate_draft_async] builds its query (line 110).  The module's
      import list (line 12) brings [select] and [update] only: in the
      module as it stands the name is unbound, the flag is [false], and the
      lookup raises [NameError].  The value [true] describes the module
      with the import added.
    - [sha256_hexdigest]: [hashlib.sha256(s.encode()).hexdigest()].
    - [provider]: the external generation provider.
    - [elapsed_ms]: the wall-clock time measured around the call of
      [generate_draft], in milliseconds, by number of requests sent before.
    - [float_pow]: [x ** n] on a float and an int (the C library's [pow]).
    - [integrity_error_text]: the text of the driver's [IntegrityError].
    - [loop_error_text]: the text of the [RuntimeError] raised when a
      connection of a closed event loop is used.
    - [pool_drops_broken]: whether the pool discards such a connection once
      its use has raised (the library decides; both answers are kept). *)
Record WorkerEnv := mkWorkerEnv {
  settings : Settings;
  selectinload_bound : bool;
  sha256_hexdigest : string -> string;
  provider : Provider;
  elapsed_ms : nat -> Z;
  float_pow : float -> Z -> float;
  integrity_error_text : string;
  loop_error_text : string;
  pool_drops_broken : bool
}.

(** *** app/db/session.py, as the workers use it

    [engine] (lines 24-34) is created when the module is imported, once
    per process, with a connection pool ([pool_size=5],
    [pool_pre_ping=True]; [NullPool] only when [APP_ENV] is "test").  A
    session takes its connection from the pool at its first statement and
    gives it back when it is closed.  A connection belongs to the event
    loop it was opened in.  The workers run each coroutine with
    [asyncio.run], in a loop of its own that is closed on return
    (tasks_draft.py lines 70, 81 and 277): a connection that one coroutine
    left in the pool is of a closed loop when the next coroutine of the
    process takes it, and its use raises [RuntimeError] before any
    statement is sent.

    [run_with_session env pid body] is [asyncio.run] of a coroutine whose
    statements are [body], in the worker process [pid]. *)
Definition run_with_session {A} (env : WorkerEnv) (pid : Pid)
    (body : World -> World * (Exception + A)) (w : World)
  : World * (Exception + A) :=
  if bool_decide (pid ∈ pooled w) then
    ((if pool_drops_broken env then set_pooled (fun s => s ∖ {[pid]}) w else w),
     inl (RuntimeError (loop_error_text env)))
  else
    let '(w', r) := body w in
    (set_pooled (fun s => {[pid]} ∪ s) w', r).

(** The dicts returned by [_generate_draft_async]. *)
Inductive GenerationResult :=
  | Skipped (draft_id_ : string)
  | Reused (draft_id_ original_draft_id prompt_hash_ : string)
  | Generated (draft_id_ : string) (generation_time_ms_ : Z)
              (usage_ : gmap string JValue) (prompt_hash_ : string).

(** [db.add(draft); ...; await db.commit()]: the pending task update and the
    new row are written together.  The row is refused, and nothing is
    written, when [task_id] (declared [unique=True]) is already taken or
    [draft_text] (declared [nullable=False]) is [None]. *)
Definition commit_with_draft (env : WorkerEnv) (tid : UUID) (task : Task)
    (mk : UUID -> AIDraft) (w : World) : World * (Exception + AIDraft) :=
  let '(new_id, w') := take_uuid w in
  let draft := mk new_id in
  if bool_decide (is_Some (ai_draft_of w tid)) || bool_decide (draft_text draft = None)
  then (w, inl (IntegrityError (integrity_error_text env)))
  else
    let w' := set_ai_drafts (fun ds => ds ++ [draft])%list w' in
    (set_tasks (insert tid task) w', inr draft).

(** The task as the three successful paths leave it.  [generating] is the
    write of line 120; [ready] the writes of lines 132-134 and 185-187;
    [generated] those of lines 224-227, which also clear [last_error]. *)
Definition generating (t : Task) : Task := with_draft_status GENERATING t.

Definition ready (t : Task) : Task :=
  with_allocation_hold false
    (with_draft_status SUCCEEDED (with_status READY_FOR_ANNOTATION t)).

Definition generated (t : Task) : Task := with_last_error None (ready t).

(** Lines 124-141: the task already has a draft and regeneration is not
    forced. *)
Definition skip_existing (tid : UUID) (task : Task) (d : AIDraft) (w : World)
  : World * (Exception + GenerationResult) :=
  (set_tasks (insert tid (ready task)) w, inr (Skipped (str_uuid (draft_id d)))).

(** Lines 163-195: a draft with the same prompt hash exists and
    regeneration is not forced. *)
Definition reuse_existing (env : WorkerEnv) (tid : UUID) (task : Task)
    (existing : AIDraft) (hash : string) (w : World)
  : World * (Exception + GenerationResult) :=
  let new_draft (new_id : UUID) :=
    mkAIDraft new_id tid (model_name existing) (prompt_version existing)
      hash (draft_text existing) (trace_json existing)
      (<["reused" := JBool true]>
         (<["original_draft_id" := JStr (str_uuid (draft_id existing))]> ∅))
      0 (temperature existing) in
  match commit_with_draft env tid (ready task) new_draft w with
  | (w, inl e) => (w, inl e)
  | (w, inr d) =>
      (w, inr (Reused (str_uuid (draft_id d)) (str_uuid (draft_id existing)) hash))
  end.

(** Lines 197-248: generate a new draft. *)
Definition generate_new (env : WorkerEnv) (tid : UUID) (task : Task)
    (table : TableSchema) (hash : string) (w : World)
  : World * (Exception + GenerationResult) :=
  let draft_service := DraftService_init (settings env) in
  let ms := elapsed_ms env (length (provider_log w)) in
  match generate_draft draft_service (provider env) table
                       (DEFAULT_LLM_MODEL (settings env)) 0.7%float 1000 w with
  | (w, inl e) => (w, inl e)
  | (w, inr draft_result) =>
      let draft (new_id : UUID) :=
        mkAIDraft new_id tid (dr_model draft_result)
          (dr_prompt_version draft_result) hash (dr_text draft_result)
          (Some (dr_trace draft_result)) (dr_usage draft_result)
          ms (dr_temperature draft_result) in
      match commit_with_draft env tid (generated task) draft w with
      | (w, inl e) => (w, inl e)
      | (w, inr d) =>
          (w, inr (Generated (str_uuid (draft_id d)) ms (dr_usage draft_result) hash))
      end
  end.

(** Lines 151-155: the prompt hash of a table. *)
Definition prompt_hash_of (env : WorkerEnv) (table : TableSchema) : string :=
  sha256_hexdigest env
    (DEFAULT_LLM_MODEL (settings env) +:+ ":" +:+ create_prompt table).

(** Lines 143-248, after the task was marked [GENERATING]: [task] is the
    loaded object, which carries that write. *)
Definition generate_or_reuse (env : WorkerEnv) (tid : UUID) (task : Task)
    (force_regenerate : bool) (w : World) : World * (Exception + GenerationResult) :=
  match parsed_tables w !! table_id task with
  | None =>
      (w, inl (ValueError ("No parsed table found for task: " +:+ str_uuid tid)))
  | Some table =>
      let hash := prompt_hash_of env table in
      let existing_draft :=
        List.find (fun d => bool_decide (prompt_hash d = hash)) (ai_drafts w) in
      match existing_draft, force_regenerate with
      | Some existing, false => reuse_existing env tid task existing hash w
      | _, _ => generate_new env tid task table hash w
      end
  end.

(** The statements of [_generate_draft_async], lines 114-248. *)
Definition generate_draft_statements (env : WorkerEnv) (tid : UUID)
    (force_regenerate : bool) (w : World) : World * (Exception + GenerationResult) :=
  match tasks w !! tid with
  | None => (w, inl (ValueError ("Task not found: " +:+ str_uuid tid)))
  | Some task =>
      let own_draft := ai_draft_of w tid in
      (* Update task status to generating *)
      let task := generating task in
      let w := set_tasks (insert tid task) w in
      match own_draft, force_regenerate with
      | Some d, false => skip_existing tid task d w
      | _, _ => generate_or_reuse env tid task force_regenerate w
      end
  end.

(** [_generate_draft_async], lines 102-248, run in the worker process
    [pid].  The query is built (lines 106-113) before any statement is
    sent: where [selectinload] is unbound the coroutine ends there, without
    having taken a connection. *)
Definition _generate_draft_async (env : WorkerEnv) (pid : Pid) (tid : UUID)
    (force_regenerate : bool) (w : World) : World * (Exception + GenerationResult) :=
  if negb (selectinload_bound env) then
    (w, inl (NameError "name 'selectinload' is not defined"))
  else
    run_with_session env pid (generate_draft_statements env tid force_regenerate) w.

(** The statement of [_update_task_failed], lines 254-262: one
    [UPDATE ... WHERE id = task_id]. *)
Definition failed_update (tid : UUID) (error_message : string) (w : World) : World :=
  set_tasks
    (alter (fun t =>
              with_retry_count (retry_count t + 1)
                (with_last_error (Some error_message)
                   (with_draft_status FAILED t)))
           tid) w.

(** [_update_task_failed], lines 251-263, run in the worker process
    [pid]. *)
Definition _update_task_failed (env : WorkerEnv) (pid : Pid) (tid : UUID)
    (error_message : string) (w : World) : World * (Exception + unit) :=
  run_with_session env pid (fun w => (failed_update tid error_message w, inr tt)) w.

(** How one delivery of the Celery task ends: it returns, it raises
    [self.retry(exc, countdown)] and is delivered again, or it raises.*)
Inductive Outcome :=
  | Return (r : GenerationResult)
  | Retry (exc : Exception) (countdown : float)
  | Raise (exc : Exception).

(** A delivery that did not return: it raised, with or without a retry. *)
Definition failed_outcome (o : Outcome) : Prop :=
  match o with Return _ => False | _ => True end.

(** [@celery_app.task(bind=True, base=CallbackTask, max_retries=3)]. *)
Definition max_retries : Z := 3.

(** [generate_ai_draft], lines 39-99, delivered to the worker process
    [pid]; [retries] is [self.request.retries].  Line 81 is inside the
    [except] block: what [_update_task_failed] raises leaves the function
    there, before the retry is considered. *)
Definition generate_ai_draft (env : WorkerEnv) (pid : Pid) (retries : Z) (tid : UUID)
    (force_regenerate : bool) (w : World) : World * Outcome :=
  match _generate_draft_async env pid tid force_regenerate w with
  | (w, inr r) => (w, Return r)
  | (w, inl exc) =>
      (* Update task status to failed *)
      match _update_task_failed env pid tid (str_exc exc) w with
      | (w, inl raised) => (w, Raise raised)
      | (w, inr _) =>
          (* Retry with exponential backoff *)
          if bool_decide (retries < max_retries) then
            let backoff_seconds :=
              (float_pow env (DRAFT_RETRY_BACKOFF_FACTOR (settings env)) retries
               * float_of_Z 60)%float in
            (w, Retry exc backoff_seconds)
          else
            (* Max retries exceeded *)
            (w, Raise exc)
      end
  end.

(** The deliveries of one job, in order: Celery delivers the task again
    with [retries + 1] after each [Retry].  [pids] names the worker
    process that takes each delivery; the job is followed for as many
    deliveries as [pids] has entries. *)
Fixpoint deliveries (env : WorkerEnv) (pids : list Pid) (retries : Z) (tid : UUID)
    (force_regenerate : bool) (w : World) : World * list Outcome :=
  match pids with
  | [] => (w, [])
  | pid :: pids' =>
      match generate_ai_draft env pid retries tid force_regenerate w with
      | (w', Retry exc countdown) =>
          let '(w'', rest) := deliveries env pids' (retries + 1) tid force_regenerate w' in
          (w'', Retry exc countdown :: rest)
      | (w', o) => (w', [o])
      end
  end.

(** [_cleanup_failed_tasks_async], lines 280-301, run in the worker
    process [pid].  [stale tid] stands for [updated_at < cutoff_time], the
    timestamps being outside the model.  The result is the number of rows
    updated. *)
Definition _cleanup_failed_tasks_async (env : WorkerEnv) (pid : Pid)
    (stale : UUID -> bool) (w : World) : World * (Exception + nat) :=
  let hit (tid : UUID) (t : Task) : bool :=
    bool_decide (draft_status t = FAILED) && stale tid
    && bool_decide (last_error t ≠ None) in
  run_with_session env pid (fun w =>
    (set_tasks (map_imap (fun tid t =>
                  Some (if hit tid t then with_last_error None t else t))) w,
     inr (size (filter (fun kt => hit kt.1 kt.2 = true) (tasks w))))) w.

(** The row the generating path writes for a completion (lines 209-219); [w]
    is the store before the request. *)
Definition completion_row (env : WorkerEnv) (tid : UUID) (table : TableSchema)
    (content : option string) (i o total : Z) (w : World) : AIDraft :=
  let model := DEFAULT_LLM_MODEL (settings env) in
  mkAIDraft (next_uuid w) tid model "v1.0" (prompt_hash_of env table) content
    (Some (<["prompt_tokens" := JInt i]>
       (<["completion_tokens" := JInt o]>
          (<["total_tokens" := JInt total]>
             (<["model" := JStr model]>
                (<["temperature" := JFloat 0.7]>
                   (<["prompt_preview" :=
                        JStr (prompt_preview (create_prompt table))]> ∅)))))))
    (<["input_tokens" := JInt i]>
       (<["output_tokens" := JInt o]>
          (<["total_tokens" := JInt total]>
             (<["cost_usd" := JFloat (_calculate_cost
                  (DraftService_init (settings env)) model i o)]> ∅))))
    (elapsed_ms env (length (provider_log w))) 0.7%float.

(** [settings.OPENAI_API_KEY] is falsy: unset, or the empty string. *)
Definition key_missing (s : Settings) : Prop :=
  OPENAI_API_KEY s = None \/ OPENAI_API_KEY s = Some "".

(** ** app/workers/tasks_parse.py *)

(** The body of the loop of [_process_pdf_async] over the extracted tables,
    lines 139-183: a parsed-table row and its task.  Lines 142-145 read
    [table_data["page"]], [table_data["meta"]["detector"]] and
    [table_data["meta"]["confidence"]]; where one of them is missing the
    [KeyError] is caught (lines 181-183) and the table is skipped. *)
Definition create_table_task (project : UUID) (table_data : TableSchema)
    (w : World) : World * option UUID :=
  let keys :=
    _ ← page table_data;
    m ← meta table_data;
    _ ← detector m;
    confidence m in
  match keys with
  | None => (w, None)
  | Some _ =>
      let '(parsed_table_id, w) := take_uuid w in
      let w := set_parsed_tables (insert parsed_table_id table_data) w in
      let '(new_task_id, w) := take_uuid w in
      let task :=
        mkTask parsed_table_id project None AWAITING_DRAFT QUEUED 0 true None 0 in
      (set_tasks (insert new_task_id task) w, Some new_task_id)
  end.

(** ** app/api/v1/routes_drafts.py *)

Module routes_drafts.

Record GenerateDraftRequest := mkGenerateDraftRequest {
  force_regenerate : bool;
  model_override : option string;
  temperature_override : option float
}.

Record GenerateDraftResponse := mkGenerateDraftResponse {
  gr_task_id : UUID;
  gr_draft_status : DraftStatus;
  estimated_completion_seconds : option Z
}.

(** [task.ai_draft] on the object the route has loaded.  The query of
    lines 176-183 has no loader option, so the attribute is not loaded, and
    reading it (line 194) has to query the database outside an awaited
    call, which an [AsyncSession] refuses. *)
Definition lazy_ai_draft (w : World) (tid : UUID) : Exception + option AIDraft :=
  inl (MissingGreenlet
         "greenlet_spawn has not been called; can't call await_only() here. Was IO attempted in an unexpected place?").

(** [generate_draft], lines 156-229. *)
Definition generate_draft (tid : UUID) (request : GenerateDraftRequest)
    (org : UUID) (w : World) : World * (Failure + GenerateDraftResponse) :=
  match load_task_for_org w tid org with
  | None => (w, inl (Http (mkHTTPException HTTP_404_NOT_FOUND TaskNotFoundOrDenied)))
  | Some task =>
      match lazy_ai_draft w tid with
      | inl exc => (w, inl (Unhandled exc))
      | inr own_draft =>
          (* Check if draft already exists *)
          if bool_decide (is_Some own_draft) && negb (force_regenerate request)
          then (w, inl (Http (mkHTTPException HTTP_400_BAD_REQUEST DraftAlreadyExists)))
          (* Check task status *)
          else if negb (bool_decide (status task ∈ [AWAITING_DRAFT; READY_FOR_ANNOTATION]))
          then (w, inl (Http (mkHTTPException HTTP_400_BAD_REQUEST
                                (CannotGenerateInStatus (status task)))))
          else
            (* Update task status *)
            let task := with_draft_status QUEUED task in
            let task :=
              if bool_decide (status task = READY_FOR_ANNOTATION) && force_regenerate request
              then with_status AWAITING_DRAFT task else task in
            let w := set_tasks (insert tid task) w in
            (w, inr (mkGenerateDraftResponse tid (draft_status task) (Some 120)))
      end
  end.

End routes_drafts.

(** ** app/api/v1/routes_tasks.py, continued *)

(** [assign_task], lines 382-437.  With a user, line 422 copies the
    task's [updated_at] into [assigned_at], declared as a string column:
    the commit of line 429 is accepted when that value is NULL, the row
    never having been updated, and refused when it is a timestamp.  The
    timestamps being outside the model, [updated_at_null] says which. *)
Definition assign_task (tid : UUID) (user_id : option UUID) (org : UUID)
    (updated_at_null : bool) (w : World) : World * (Failure + unit) :=
  match load_task_for_org w tid org with
  | None => (w, inl (Http (mkHTTPException HTTP_404_NOT_FOUND TaskNotFoundOrDenied)))
  | Some task =>
      let task :=
        mkTask (table_id task) (project_id task) user_id (status task)
               (draft_status task) (priority task) (allocation_hold task)
               (last_error task) (retry_count task) in
      if bool_decide (is_Some user_id) && negb updated_at_null
      then (w, inl (Unhandled (DBAPIError
                      "invalid input for query argument (expected str, got datetime)")))
      else (set_tasks (insert tid task) w, inr tt)
  end.

(** ** The operations that write a task

    One constructor per entry point of the source that creates or updates
    a task row; [run_ops] applies a sequence of them in order.  What
    [process_pdf] does for one extracted table, when it gets to its loop,
    is [OpCreate]. *)
Inductive Op :=
  | OpCreate (project : UUID) (table_data : TableSchema)
  | OpDeliver (pid : Pid) (retries : Z) (tid : UUID) (force_regenerate : bool)
  | OpCleanup (pid : Pid) (stale : UUID -> bool)
  | OpRetry (tid org : UUID)
  | OpRequest (tid : UUID) (request : routes_drafts.GenerateDraftRequest) (org : UUID)
  | OpAssign (tid : UUID) (user_id : option UUID) (org : UUID) (updated_at_null : bool).

Definition apply_op (env : WorkerEnv) (op : Op) (w : World) : World :=
  match op with
  | OpCreate project table_data => (create_table_task project table_data w).1
  | OpDeliver pid retries tid force => (generate_ai_draft env pid retries tid force w).1
  | OpCleanup pid stale => (_cleanup_failed_tasks_async env pid stale w).1
  | OpRetry tid org => (retry_draft_generation tid org w).1
  | OpRequest tid request org => (routes_drafts.generate_draft tid request org w).1
  | OpAssign tid user_id org updated_at_null =>
      (assign_task tid user_id org updated_at_null w).1
  end.

Definition run_ops (env : WorkerEnv) (ops : list Op) (w : World) : World :=
  foldl (fun w op => apply_op env op w) w ops.

(** ** The QA review cycle *)

Module QA.

(** Modelled from the spec: the two rejections of the error taxonomy of
    section 7 that the review operations raise; the source defines no such
    exceptions. *)
Inductive Rejection :=
  | NotFound
  | InvalidStateTransition.

(** Modelled from the spec: the record of the previous annotator that 4.5
    asks for on a failed review, for which [Task] has no column.  The
    store of the review operations is the tables together with, for each
    task, the annotator whose edit failed review last. *)
Record Store := mkStore {
  world : World;
  previous_annotator : gmap UUID UUID
}.

Definition draft_by_id (w : World) (did : UUID) : option AIDraft :=
  List.find (fun d => bool_decide (draft_id d = did)) (ai_drafts w).

Definition edit_by_id (w : World) (eid : UUID) : option HumanEdit :=
  List.find (fun e => bool_decide (he_id e = eid)) (human_edits w).

(** The most recent edit of a draft: rows are kept oldest first. *)
Definition latest_edit (w : World) (did : UUID) : option HumanEdit :=
  last (List.filter (fun e => bool_decide (he_draft_id e = did)) (human_edits w)).

(** The edit, its draft and the task the draft belongs to. *)
Definition edit_context (w : World) (eid : UUID)
  : option (HumanEdit * AIDraft * Task) :=
  e ← edit_by_id w eid;
  d ← draft_by_id w (he_draft_id e);
  t ← tasks w !! task_id d;
  Some (e, d, t).

Definition add_human_edit (e : HumanEdit) (w : World) : World :=
  mkWorld (tasks w) (ai_drafts w) (human_edits w ++ [e])%list (qa_checks w)
          (parsed_tables w) (projects w) (next_uuid w) (provider_log w) (pooled w).

Definition add_qa_check (c : QACheck) (w : World) : World :=
  mkWorld (tasks w) (ai_drafts w) (human_edits w) (qa_checks w ++ [c])%list
          (parsed_tables w) (projects w) (next_uuid w) (provider_log w) (pooled w).

(** Modelled from the spec: [record_human_edit(draft_id, user_id, text,
    reason)] of section 6, which the source does not contain (it has the
    [HumanEdit] table only).  An edit is made against a draft (4.5); once
    the task is [QA_DONE] no further edit is accepted (4.5); an annotator
    submitting from [IN_PROGRESS], or from [REASSIGNED], which 4.1 treats as
    its equivalent, moves the task on to [QA_PENDING] (4.1). *)
Definition record_human_edit (did user : UUID) (new_text : string)
    (reason : option string) (s : Store) : Store * (Rejection + UUID) :=
  match draft_by_id (world s) did with
  | None => (s, inl NotFound)
  | Some d =>
      match tasks (world s) !! task_id d with
      | None => (s, inl NotFound)
      | Some task =>
          if bool_decide (status task = QA_DONE) then (s, inl InvalidStateTransition)
          else
            let '(eid, w) := take_uuid (world s) in
            let w := add_human_edit (mkHumanEdit eid did user new_text reason None) w in
            let task :=
              if bool_decide (status task ∈ [IN_PROGRESS; REASSIGNED])
              then with_status QA_PENDING task else task in
            (mkStore (set_tasks (insert (task_id d) task) w) (previous_annotator s),
             inr eid)
      end
  end.

(** Modelled from the spec: [record_qa(edit_id, reviewer_id, result,
    comments)] of section 6, which the source does not contain (it has the
    [QACheck] table only).  A check is an event of a task in [QA_PENDING]
    (4.1), any other state rejecting it; the check is stored with the
    reviewer's comments; a check against the latest edit of the draft is
    the authoritative one (3) and moves the task: [PASS] to [QA_DONE],
    [FAIL] to [REASSIGNED] with the author of the failing edit recorded as
    the previous annotator (4.5).  The edit itself is not touched. *)
Definition record_qa (eid reviewer : UUID) (res : QAResult)
    (cmts : option string) (s : Store) : Store * (Rejection + UUID) :=
  match edit_context (world s) eid with
  | None => (s, inl NotFound)
  | Some (e, d, task) =>
      if bool_decide (status task ≠ QA_PENDING) then (s, inl InvalidStateTransition)
      else
        let '(qid, w) := take_uuid (world s) in
        let w := add_qa_check (mkQACheck qid eid reviewer res cmts None) w in
        if bool_decide (he_id <$> latest_edit (world s) (he_draft_id e) = Some eid) then
          match res with
          | PASS =>
              (mkStore (set_tasks (insert (task_id d) (with_status QA_DONE task)) w)
                       (previous_annotator s),
               inr qid)
          | FAIL =>
              (mkStore (set_tasks (insert (task_id d) (with_status REASSIGNED task)) w)
                       (<[task_id d := he_user_id e]> (previous_annotator s)),
               inr qid)
          end
        else (mkStore w (previous_annotator s), inr qid)
  end.

End QA.

(** ** Concrete environments and stores used to run the code *)

Module Fixtures.

(** A stand-in for the digest, injective as SHA-256 is taken to be. *)
Definition digest (s : string) : string := s.

(** [x ** n] by repeated multiplication; exact for the powers of 2.0
    used below. *)
Definition pow_iter (x : float) (n : Z) : float :=
  Z.iter n (fun acc => (acc * x)%float) 1%float.

Definition failing_provider : Provider :=
  fun _ _ _ => ProviderError "Connection error.".

Definition answering_provider : Provider :=
  fun _ _ _ => Completion (Some "**Purpose** ...") 120 80 200.

Definition with_key : Settings :=
  mkSettings (Some "sk-test") "gpt-4o-mini" 3 2.0%float.

(** The worker module as it stands (the name [selectinload] unbound),
    and with the import added. *)
Definition env_as_shipped (s : Settings) (p : Provider) : WorkerEnv :=
  mkWorkerEnv s false digest p (fun _ => 1500) pow_iter "duplicate key value"
              "Event loop is closed" true.

Definition env_bound (s : Settings) (p : Provider) : WorkerEnv :=
  mkWorkerEnv s true digest p (fun _ => 1500) pow_iter "duplicate key value"
              "Event loop is closed" true.

(** The module as it stands, with the provider key set and a provider that
    would answer. *)
Definition shipped : WorkerEnv := env_as_shipped with_key answering_provider.

(** A table of 2 rows and 3 columns. *)
Definition cells_2x3 : list Cell :=
  [ mkCell (Some 0) (Some 0) (Some "Item") (Some true);
    mkCell (Some 0) (Some 1) (Some "Limit") (Some true);
    mkCell (Some 0) (Some 2) (Some "Unit") (Some true);
    mkCell (Some 1) (Some 0) (Some "Lead") None;
    mkCell (Some 1) (Some 1) (Some "0.1") None;
    mkCell (Some 1) (Some 2) (Some "mg/kg") None ].

Definition table_a : TableSchema :=
  mkTableSchema (Some (mkTableMeta (Some "camelot") (Some 0.95%float)))
                (Some cells_2x3) (Some 2) (Some 3) (Some 1).

Definition org : UUID := 7%nat.
Definition project : UUID := 1%nat.

Definition empty_world : World :=
  mkWorld ∅ [] [] [] ∅ {[ project := org ]} 100%nat [] ∅.

(** One table uploaded: table 100, task 101. *)
Definition one_task : World := (create_table_task project table_a empty_world).1.
Definition T1 : UUID := 101%nat.

(** Another extraction of the same table: cells in another order, padded
    texts, no header flags, a confidence that rounds to the same two
    decimals.  Its prompt is that of [table_a]. *)
Definition table_b : TableSchema :=
  mkTableSchema (Some (mkTableMeta (Some "camelot") (Some 0.9512%float)))
    (Some [ mkCell (Some 0) (Some 2) (Some "Unit") None;
            mkCell (Some 0) (Some 0) (Some "Item ") None;
            mkCell (Some 0) (Some 1) (Some " Limit") None;
            mkCell (Some 1) (Some 0) (Some "Lead") None;
            mkCell (Some 1) (Some 1) (Some "0.1") None;
            mkCell (Some 1) (Some 2) (Some "mg/kg") None ])
    (Some 2) (Some 3) (Some 1).

(** Both tables uploaded: tasks 101 (on [table_a]) and 103 (on [table_b]). *)
Definition two_tasks : World := (create_table_task project table_b one_task).1.
Definition T2 : UUID := 103%nat.

Definition put_task (tid : UUID) (f : Task -> Task) (w : World) : World :=
  set_tasks (alter f tid) w.

(** The one task with a draft, row 102, as a worker that could generate
    would have left them.  The module as it stands stores no draft: the
    rows are given, as the database may hold them. *)
Definition draft_102 : AIDraft :=
  mkAIDraft 102%nat T1 "gpt-4o-mini" "v1.0" "3f2a" (Some "**Purpose** ...")
            None ∅ 1500 0.7%float.

Definition drafted : World :=
  mkWorld (<[T1 := mkTask 100%nat project None READY_FOR_ANNOTATION SUCCEEDED
                          0 false None 0]> (tasks one_task))
          [draft_102] [] [] (parsed_tables one_task) (projects one_task)
          103%nat [] ∅.

(** The task taken up by an annotator who submits an edit (row 103): the
    task is then QA_PENDING. *)
Definition annotator : UUID := 9%nat.
Definition reviewer : UUID := 8%nat.

Definition qa_start : QA.Store :=
  QA.mkStore (put_task T1 (with_status IN_PROGRESS) drafted) ∅.

Definition qa_pending : QA.Store :=
  (QA.record_human_edit 102%nat annotator "Lead: at most 0.1 mg/kg." None qa_start).1.

(** The review passed: the task is QA_DONE (check row 104). *)
Definition qa_done : QA.Store :=
  (QA.record_qa 103%nat reviewer PASS None qa_pending).1.

End Fixtures.

(** The task written by a successful manual retry
    ([retry_draft_generation], lines 295-299). *)
Definition requeued (task : Task) : Task :=
  mkTask (table_id task) (project_id task) (assigned_to task)
         AWAITING_DRAFT QUEUED (priority task) true None (retry_count task).

(** The exception of line 110 in the module as it stands. *)
Definition name_error : Exception := NameError "name 'selectinload' is not defined".

(** [countdown] of the retry raised at line 91. *)
Definition backoff (env : WorkerEnv) (retries : Z) : float :=
  (float_pow env (DRAFT_RETRY_BACKOFF_FACTOR (settings env)) retries
   * float_of_Z 60)%float.

(** The task after the statement of [_update_task_failed] (lines 257-261). *)
Definition failed_with (error_message : string) (t : Task) : Task :=
  mkTask (table_id t) (project_id t) (assigned_to t) (status t) FAILED
         (priority t) (allocation_hold t) (Some error_message) (retry_count t + 1).

(** The rate table as the specification words it: three named models, and
    the default rates for every other name. *)
Definition spec_rates (model : string) : float * float :=
  if bool_decide (model = "gpt-4o-mini") then (0.00015, 0.0006)%float
  else if bool_decide (model = "gpt-4o") then (0.005, 0.015)%float
  else if bool_decide (model = "gpt-3.5-turbo") then (0.0005, 0.0015)%float
  else (0.001, 0.002)%float.

(** * Properties *)

(** ** Sessions of the worker processes *)

Lemma run_with_session_stale {A} (env : WorkerEnv) (pid : Pid)
    (body : World -> World * (Exception + A)) (w : World) :
  pid ∈ pooled w ->
  run_with_session env pid body w =
    ((if pool_drops_broken env then set_pooled (fun s => s ∖ {[pid]}) w else w),
     inl (RuntimeError (loop_error_text env))).
Proof. intros H. unfold run_with_session. by rewrite bool_decide_eq_true_2. Qed.

Lemma run_with_session_fresh {A} (env : WorkerEnv) (pid : Pid)
    (body : World -> World * (Exception + A)) (w : World) :
  pid ∉ pooled w ->
  run_with_session env pid body w =
    (set_pooled (fun s => {[pid]} ∪ s) (body w).1, (body w).2).
Proof.
  intros H. unfold run_with_session. rewrite bool_decide_eq_false_2 by exact H.
  by destruct (body w).
Qed.

(** ** The worker module as it stands *)

Section AsShipped.
Context (env : WorkerEnv).
Hypothesis Hshipped : selectinload_bound env = false.

Lemma shipped_generation (pid : Pid) (tid : UUID) (force : bool) (w : World) :
  _generate_draft_async env pid tid force w = (w, inl name_error).
Proof. unfold _generate_draft_async. by rewrite Hshipped. Qed.

(** A delivery to a process whose pool is empty: the failure is recorded
    and the retry considered. *)
Lemma shipped_delivery_fresh (pid : Pid) (retries : Z) (tid : UUID) (force : bool)
    (w : World) :
  pid ∉ pooled w ->
  generate_ai_draft env pid retries tid force w =
    (set_pooled (fun s => {[pid]} ∪ s) (failed_update tid (str_exc name_error) w),
     if bool_decide (retries < 3) then Retry name_error (backoff env retries)
     else Raise name_error).
Proof.
  intros Hp. unfold generate_ai_draft. rewrite shipped_generation.
  unfold _update_task_failed. rewrite run_with_session_fresh by exact Hp. simpl.
  unfold max_retries. by destruct (bool_decide (retries < 3)).
Qed.

(** A delivery to a process whose pool holds a connection: the handler
    raises at line 81, nothing is written and no retry is raised. *)
Lemma shipped_delivery_stale (pid : Pid) (retries : Z) (tid : UUID) (force : bool)
    (w : World) :
  pid ∈ pooled w ->
  generate_ai_draft env pid retries tid force w =
    ((if pool_drops_broken env then set_pooled (fun s => s ∖ {[pid]}) w else w),
     Raise (RuntimeError (loop_error_text env))).
Proof.
  intros Hp. unfold generate_ai_draft. rewrite shipped_generation.
  unfold _update_task_failed. by rewrite run_with_session_stale by exact Hp.
Qed.

(** Whatever the pool holds, a delivery does not return, sends nothing to
    the provider, stores no draft, and writes no task but its own, which it
    leaves as it was or marks failed. *)
Lemma shipped_delivery (pid : Pid) (retries : Z) (tid : UUID) (force : bool)
    (w : World) :
  let run := generate_ai_draft env pid retries tid force w in
  failed_outcome run.2
  /\ ai_drafts run.1 = ai_drafts w
  /\ provider_log run.1 = provider_log w
  /\ parsed_tables run.1 = parsed_tables w
  /\ projects run.1 = projects w
  /\ (tasks run.1 = tasks w
      \/ tasks run.1 = alter (failed_with (str_exc name_error)) tid (tasks w)).
Proof.
  destruct (decide (pid ∈ pooled w)) as [Hp|Hp].
  - rewrite shipped_delivery_stale by exact Hp. simpl.
    destruct (pool_drops_broken env); simpl; repeat split; auto.
  - rewrite shipped_delivery_fresh by exact Hp. simpl.
    repeat split; try reflexivity; [by destruct (bool_decide _)|].
    right. reflexivity.
Qed.

(** What a delivery writes: one task at most, its own, marked failed. *)
Lemma shipped_delivery_writes (pid : Pid) (retries : Z) (tid : UUID) (force : bool)
    (w : World) (t : UUID) (task' : Task) :
  tasks (generate_ai_draft env pid retries tid force w).1 !! t = Some task' ->
  exists task0,
    tasks w !! t = Some task0
    /\ (task' = task0 \/ (t = tid /\ task' = failed_with (str_exc name_error) task0)).
Proof.
  pose proof (shipped_delivery pid retries tid force w) as (_ & _ & _ & _ & _ & Ht).
  cbv zeta in Ht. intros Hl. destruct Ht as [Ht|Ht]; rewrite Ht in Hl.
  - exists task'. split; [exact Hl|by left].
  - destruct (decide (t = tid)) as [->|Hne].
    + rewrite lookup_alter_eq in Hl.
      destruct (tasks w !! tid) as [task0|]; [|discriminate].
      injection Hl as <-. exists task0. split; [reflexivity|]. right. done.
    + rewrite lookup_alter_ne in Hl by congruence.
      exists task'. split; [exact Hl|by left].
Qed.

End AsShipped.

(** ** Manual retry ([retry_draft_generation]) *)

(** C6.  For a task the caller may see: when [draft_status] is not FAILED
    the manual retry is rejected with HTTP 400 (carrying the current draft
    status) and the store is unchanged; when it is FAILED the task is
    rewritten with status AWAITING_DRAFT, draft_status QUEUED,
    allocation_hold true and last_error None, every other field, and
    retry_count in particular, being kept. *)
Theorem retry_draft_generation_guard (w : World) (tid org : UUID) (task : Task) :
  load_task_for_org w tid org = Some task ->
  (draft_status task ≠ FAILED ->
     retry_draft_generation tid org w =
       (w, inl (mkHTTPException HTTP_400_BAD_REQUEST
                  (CannotBeRetried (draft_status task)))))
  ∧ (draft_status task = FAILED ->
     retry_draft_generation tid org w =
       (set_tasks (insert tid (requeued task)) w,
        inr (mkRetryResponse tid AWAITING_DRAFT QUEUED))
     ∧ retry_count (requeued task) = retry_count task).
Proof.
  intros Hload. unfold retry_draft_generation. rewrite Hload. split.
  - intros Hne. rewrite bool_decide_eq_true_2 by exact Hne. reflexivity.
  - intros Heq. rewrite bool_decide_eq_false_2 by (intros Hne; exact (Hne Heq)).
    split; reflexivity.
Qed.

Lemma retry_draft_generation_guard_witness :
  let succeeded :=
    Fixtures.put_task Fixtures.T1 (with_draft_status SUCCEEDED) Fixtures.one_task in
  let failed := failed_update Fixtures.T1 "Connection error." Fixtures.one_task in
  retry_draft_generation Fixtures.T1 Fixtures.org succeeded =
    (succeeded, inl (mkHTTPException HTTP_400_BAD_REQUEST (CannotBeRetried SUCCEEDED)))
  ∧ retry_draft_generation Fixtures.T1 Fixtures.org failed =
    (set_tasks (insert Fixtures.T1
                  (mkTask 100%nat Fixtures.project None AWAITING_DRAFT QUEUED
                          0 true None 1)) failed,
     inr (mkRetryResponse Fixtures.T1 AWAITING_DRAFT QUEUED)).
Proof.
  intros succeeded failed. split.
  - refine (proj1 (retry_draft_generation_guard succeeded Fixtures.T1 Fixtures.org
                     (mkTask 100%nat Fixtures.project None AWAITING_DRAFT SUCCEEDED
                             0 true None 0) _) _).
    + vm_compute. reflexivity.
    + simpl. discriminate.
  - refine (proj1 (proj2 (retry_draft_generation_guard failed Fixtures.T1 Fixtures.org
                     (mkTask 100%nat Fixtures.project None AWAITING_DRAFT FAILED
                             0 true (Some "Connection error.") 1) _) _)).
    + vm_compute. reflexivity.
    + reflexivity.
Defined.

(** The manual retry of a task whose draft_status is FAILED. *)
Lemma retry_draft_generation_guard_aux (w : World) (tid org : UUID) (task : Task) :
  load_task_for_org w tid org = Some task ->
  (draft_status task ≠ FAILED ->
     retry_draft_generation tid org w =
       (w, inl (mkHTTPException HTTP_400_BAD_REQUEST
                  (CannotBeRetried (draft_status task)))))
  ∧ (draft_status task = FAILED ->
     retry_draft_generation tid org w =
       (set_tasks (insert tid (requeued task)) w,
        inr (mkRetryResponse tid AWAITING_DRAFT QUEUED))).
Proof.
  intros Hload. unfold retry_draft_generation. rewrite Hload. split.
  - intros Hne. rewrite bool_decide_eq_true_2 by exact Hne. reflexivity.
  - intros Heq. rewrite bool_decide_eq_false_2 by (intros Hne; exact (Hne Heq)).
    reflexivity.
Qed.

(** ** Starting a generation *)

(** C1 as stated fails here.  A second delivery that arrives while the
    first is in flight (stored draft_status GENERATING, no draft yet) is
    not held back.  With the module as it stands it marks the task FAILED
    and counts a retry, as for any other stored status.  With the import
    added it sends a request to the provider, stores a draft and marks the
    task SUCCEEDED; [w] is then the store the first delivery has committed
    at line 121, and [resumed] is that first delivery going on from line
    197 (it looked for drafts at lines 124 and 161 before the second one
    stored any): it sends its own request, the second of the two, and only
    the unique index on the draft's task stops its commit.  Either way the
    task record changes. *)
Lemma duplicate_delivery_not_held_back :
  let env := Fixtures.env_bound Fixtures.with_key Fixtures.answering_provider in
  let task := mkTask 100%nat Fixtures.project None AWAITING_DRAFT QUEUED 0 true None 0 in
  let w := Fixtures.put_task Fixtures.T1 generating Fixtures.one_task in
  let bound := generate_ai_draft env 0%nat 0 Fixtures.T1 false w in
  let resumed :=
    generate_new env Fixtures.T1 (generating task) Fixtures.table_a
                 (prompt_hash_of env Fixtures.table_a) bound.1 in
  let shipped := generate_ai_draft Fixtures.shipped 0%nat 0 Fixtures.T1 false w in
  tasks Fixtures.one_task !! Fixtures.T1 = Some task
  /\ w = set_tasks (insert Fixtures.T1 (generating task)) Fixtures.one_task
  /\ provider_log w = [] /\ ai_drafts w = []
  /\ length (provider_log bound.1) = 1%nat
  /\ length (ai_drafts bound.1) = 1%nat
  /\ (draft_status <$> tasks bound.1 !! Fixtures.T1) = Some SUCCEEDED
  /\ length (provider_log resumed.1) = 2%nat
  /\ resumed.2 = inl (IntegrityError "duplicate key value")
  /\ (draft_status <$> tasks shipped.1 !! Fixtures.T1) = Some FAILED
  /\ (retry_count <$> tasks shipped.1 !! Fixtures.T1) = Some 1.
Proof. vm_compute. repeat split; reflexivity. Qed.

Lemma set_tasks_insert_twice (tid : UUID) (a b : Task) (w : World) :
  set_tasks (insert tid b) (set_tasks (insert tid a) w) = set_tasks (insert tid b) w.
Proof. unfold set_tasks; simpl. f_equal. apply insert_insert_eq. Qed.

Lemma failed_update_ignores_stored_status (tid : UUID) (msg : string) (w : World)
    (task : Task) (ds : DraftStatus) :
  tasks w !! tid = Some task ->
  failed_update tid msg (set_tasks (insert tid (with_draft_status ds task)) w)
    = failed_update tid msg w.
Proof.
  intros Ht. unfold failed_update, set_tasks. simpl.
  rewrite alter_insert_eq, (alter_alt_Some _ _ _ _ Ht). reflexivity.
Qed.

(** The statements of [_generate_draft_async] do not read the stored
    draft_status: the first write of the task (line 120) replaces it. *)
Lemma generate_draft_statements_ignore_stored_status (env : WorkerEnv) (tid : UUID)
    (force : bool) (w : World) (task : Task) (ds : DraftStatus) :
  tasks w !! tid = Some task ->
  generate_draft_statements env tid force
      (set_tasks (insert tid (with_draft_status ds task)) w)
    = generate_draft_statements env tid force w.
Proof.
  intros Ht. unfold generate_draft_statements.
  assert (Hl : tasks (set_tasks (insert tid (with_draft_status ds task)) w) !! tid
               = Some (with_draft_status ds task)) by apply lookup_insert_eq.
  rewrite Hl, Ht. cbv zeta.
  change (ai_draft_of (set_tasks (insert tid (with_draft_status ds task)) w) tid)
    with (ai_draft_of w tid).
  change (generating (with_draft_status ds task)) with (generating task).
  rewrite set_tasks_insert_twice. reflexivity.
Qed.

(** C1, as amended.  The worker does not compare the stored draft_status
    with QUEUED.  Whatever value is stored instead, one delivery ends the
    same way; in a worker process whose pool holds no connection it also
    leaves the same store (task, drafts and requests sent to the
    provider); and in any process the two stores it leaves are equal unless
    the delivery wrote no task at all, its session having failed. *)
Theorem generation_start_ignores_stored_status (env : WorkerEnv) (pid : Pid)
    (retries : Z) (tid : UUID) (force : bool) (w : World) (task : Task)
    (ds : DraftStatus) :
  tasks w !! tid = Some task ->
  let stored := set_tasks (insert tid (with_draft_status ds task)) w in
  let a := generate_ai_draft env pid retries tid force stored in
  let b := generate_ai_draft env pid retries tid force w in
  a.2 = b.2
  /\ (pid ∉ pooled w -> a = b)
  /\ (a.1 = b.1 \/ (tasks a.1 = tasks stored /\ tasks b.1 = tasks w)).
Proof.
  intros Ht stored a b. subst a b. unfold generate_ai_draft.
  destruct (selectinload_bound env) eqn:Hb.
  - (* the import added: the generation takes a session *)
    unfold _generate_draft_async. rewrite Hb. cbn [negb].
    destruct (decide (pid ∈ pooled w)) as [Hp|Hp].
    + assert (Hp' : pid ∈ pooled stored) by exact Hp.
      rewrite !run_with_session_stale by assumption.
      unfold _update_task_failed.
      destruct (pool_drops_broken env) eqn:Hd.
      * assert (Hfresh : forall w0, pid ∉ pooled (set_pooled (fun s => s ∖ {[pid]}) w0)).
        { intros w0. simpl. rewrite elem_of_difference, elem_of_singleton. tauto. }
        rewrite !run_with_session_fresh by apply Hfresh. cbn [fst snd].
        assert (Heq : failed_update tid (str_exc (RuntimeError (loop_error_text env)))
                        (set_pooled (fun s => s ∖ {[pid]}) stored)
                      = failed_update tid (str_exc (RuntimeError (loop_error_text env)))
                        (set_pooled (fun s => s ∖ {[pid]}) w)).
        { apply (failed_update_ignores_stored_status tid _
                   (set_pooled (fun s => s ∖ {[pid]}) w) task ds). exact Ht. }
        rewrite Heq. split; [reflexivity|]. split; [intros; reflexivity|]. by left.
      * rewrite !run_with_session_stale by assumption. rewrite Hd. cbn [fst snd].
        split; [reflexivity|]. split; [intros Hn; contradiction|]. right. split; reflexivity.
    + assert (Hp' : pid ∉ pooled stored) by exact Hp.
      rewrite !run_with_session_fresh by assumption.
      unfold stored. rewrite (generate_draft_statements_ignore_stored_status env tid force w task ds Ht).
      split; [reflexivity|]. split; [intros; reflexivity|]. by left.
  - (* the module as it stands *)
    rewrite !shipped_generation by exact Hb. unfold _update_task_failed.
    destruct (decide (pid ∈ pooled w)) as [Hp|Hp].
    + assert (Hp' : pid ∈ pooled stored) by exact Hp.
      rewrite !run_with_session_stale by assumption. cbn [fst snd].
      split; [reflexivity|]. split; [intros Hn; contradiction|]. right.
      destruct (pool_drops_broken env); split; reflexivity.
    + assert (Hp' : pid ∉ pooled stored) by exact Hp.
      rewrite !run_with_session_fresh by assumption. cbn [fst snd].
      unfold stored. rewrite (failed_update_ignores_stored_status _ _ _ _ _ Ht).
      split; [reflexivity|]. split; [intros; reflexivity|]. by left.
Qed.

Lemma generation_start_ignores_stored_status_witness :
  generate_ai_draft Fixtures.shipped 0%nat 0 Fixtures.T1 false
      (set_tasks (insert Fixtures.T1
         (with_draft_status SUCCEEDED
            (mkTask 100%nat Fixtures.project None AWAITING_DRAFT QUEUED 0 true None 0)))
         Fixtures.one_task)
    = generate_ai_draft Fixtures.shipped 0%nat 0 Fixtures.T1 false Fixtures.one_task.
Proof.
  refine (proj1 (proj2 (generation_start_ignores_stored_status Fixtures.shipped 0%nat 0
                          Fixtures.T1 false Fixtures.one_task _ SUCCEEDED _)) _).
  - vm_compute. reflexivity.
  - apply not_elem_of_empty.
Defined.

(** ** Failures and retries *)

(** C2 as stated fails here, on the module as it stands, where every
    attempt fails at line 110.  When each delivery is taken by another
    worker process, the third failure (retry_count 3) is followed by a
    fourth delivery, 240 seconds later, and the job ends after four
    deliveries with retry_count 4; the first retry comes after 60 seconds.
    When one process takes them all, the second delivery raises from the
    failure handler: that failure is not counted and no retry follows. *)
Lemma three_failures_get_a_fourth_attempt :
  let env := Fixtures.shipped in
  let three := deliveries env [1; 2; 3]%nat 0 Fixtures.T1 false Fixtures.one_task in
  let all := deliveries env [1; 2; 3; 4; 5; 6]%nat 0 Fixtures.T1 false Fixtures.one_task in
  let same := deliveries env [1; 1; 1; 1]%nat 0 Fixtures.T1 false Fixtures.one_task in
  three.2 = [Retry name_error 60%float; Retry name_error 120%float;
             Retry name_error 240%float]
  /\ (retry_count <$> tasks three.1 !! Fixtures.T1) = Some 3
  /\ all.2 = [Retry name_error 60%float; Retry name_error 120%float;
              Retry name_error 240%float; Raise name_error]
  /\ tasks all.1 !! Fixtures.T1 =
       Some (mkTask 100%nat Fixtures.project None AWAITING_DRAFT FAILED 0 true
               (Some "name 'selectinload' is not defined") 4)
  /\ same.2 = [Retry name_error 60%float; Raise (RuntimeError "Event loop is closed")]
  /\ tasks same.1 !! Fixtures.T1 =
       Some (mkTask 100%nat Fixtures.project None AWAITING_DRAFT FAILED 0 true
               (Some "name 'selectinload' is not defined") 1).
Proof. vm_compute. repeat split; reflexivity. Qed.

Lemma no_retry_at_max_retries (env : WorkerEnv) (pid : Pid) (retries : Z) (tid : UUID)
    (force : bool) (w : World) (exc : Exception) (c : float) :
  max_retries <= retries ->
  (generate_ai_draft env pid retries tid force w).2 <> Retry exc c.
Proof.
  intros Hle. unfold generate_ai_draft.
  destruct (_generate_draft_async env pid tid force w) as [w1 [e|r]]; simpl; [|discriminate].
  destruct (_update_task_failed env pid tid (str_exc e) w1) as [w2 [e2|u]]; simpl;
    [discriminate|].
  rewrite bool_decide_eq_false_2 by lia. discriminate.
Qed.

(** A job is followed to its end by its first [max_retries + 1]
    deliveries. *)
Lemma deliveries_bound (env : WorkerEnv) (tid : UUID) (force : bool) (n : nat) :
  forall (pids : list Pid) (retries : Z) (w : World),
    max_retries <= retries + Z.of_nat n ->
    (length (deliveries env pids retries tid force w).2 <= S n)%nat
    /\ deliveries env pids retries tid force w
       = deliveries env (take (S n) pids) retries tid force w.
Proof.
  induction n as [|n IH]; intros pids retries w Hle.
  - destruct pids as [|pid pids]; simpl; [split; [lia|reflexivity]|].
    pose proof (no_retry_at_max_retries env pid retries tid force w) as Hno.
    destruct (generate_ai_draft env pid retries tid force w) as [w' [r|exc c|exc]];
      simpl in *; try (split; [lia|reflexivity]).
    exfalso. apply (Hno exc c); [lia|reflexivity].
  - destruct pids as [|pid pids]; [simpl; split; [lia|reflexivity]|].
    change (take (S (S n)) (pid :: pids)) with (pid :: take (S n) pids).
    cbn [deliveries].
    destruct (generate_ai_draft env pid retries tid force w) as [w' [r|exc c|exc]];
      simpl; try (split; [lia|reflexivity]).
    destruct (IH pids (retries + 1) w') as [Hlen Heq]; [lia|].
    rewrite <- Heq.
    destruct (deliveries env pids (retries + 1) tid force w') as [w'' rest].
    simpl in *. split; [lia|reflexivity].
Qed.

(** A generation that failed and left no connection in the pool of its
    process has written no task. *)
Lemma failed_generation_without_connection (env : WorkerEnv) (pid : Pid) (tid : UUID)
    (force : bool) (w w1 : World) (exc : Exception) :
  _generate_draft_async env pid tid force w = (w1, inl exc) ->
  pid ∉ pooled w1 ->
  tasks w1 = tasks w.
Proof.
  unfold _generate_draft_async. destruct (selectinload_bound env); cbn [negb].
  - destruct (decide (pid ∈ pooled w)) as [Hp|Hp].
    + rewrite run_with_session_stale by exact Hp. intros [= <- _] _.
      by destruct (pool_drops_broken env).
    + rewrite run_with_session_fresh by exact Hp. intros [= <- _] Hn.
      exfalso. apply Hn. simpl. apply elem_of_union_l. by apply elem_of_singleton.
  - by intros [= <- _] _.
Qed.

Lemma failed_update_task (tid : UUID) (msg : string) (w : World) (task : Task) :
  tasks w !! tid = Some task ->
  tasks (failed_update tid msg w) !! tid = Some (failed_with msg task).
Proof.
  intros Ht. unfold failed_update. simpl. rewrite lookup_alter_eq, Ht. reflexivity.
Qed.

Lemma four_fresh_processes (p1 p2 p3 p4 : Pid) (s : gset Pid) :
  NoDup [p1; p2; p3; p4] ->
  (forall p, p ∈ [p1; p2; p3; p4] -> p ∉ s) ->
  (p1 ∉ s) /\ (p2 ∉ {[p1]} ∪ s) /\ (p3 ∉ {[p2]} ∪ ({[p1]} ∪ s))
  /\ (p4 ∉ {[p3]} ∪ ({[p2]} ∪ ({[p1]} ∪ s))).
Proof.
  intros Hnd Hs.
  apply NoDup_cons in Hnd as [Hn1 Hnd]. apply NoDup_cons in Hnd as [Hn2 Hnd].
  apply NoDup_cons in Hnd as [Hn3 _].
  assert (H12 : p2 <> p1) by (intros ->; apply Hn1; left).
  assert (H13 : p3 <> p1) by (intros ->; apply Hn1; right; left).
  assert (H14 : p4 <> p1) by (intros ->; apply Hn1; right; right; left).
  assert (H23 : p3 <> p2) by (intros ->; apply Hn2; left).
  assert (H24 : p4 <> p2) by (intros ->; apply Hn2; right; left).
  assert (H34 : p4 <> p3) by (intros ->; apply Hn3; left).
  assert (H1 : p1 ∉ s) by (apply Hs; left).
  assert (H2 : p2 ∉ s) by (apply Hs; right; left).
  assert (H3 : p3 ∉ s) by (apply Hs; right; right; left).
  assert (H4 : p4 ∉ s) by (apply Hs; right; right; right; left).
  rewrite !not_elem_of_union, !not_elem_of_singleton. tauto.
Qed.

(** C2, as amended.  A delivery whose generation attempt fails with [exc],
    in a worker process whose pool holds no connection when the failure is
    recorded, leaves the task with draft_status FAILED, last_error the
    text of [exc] and retry_count one higher, the other fields as they
    were.  It is followed by another delivery exactly when the number of
    retries the job has had so far (0 at its first delivery, not the
    task's retry_count) is below 3, after [factor ** retries * 60]
    seconds.  A job is therefore delivered four times at most, once and
    three retries: its first four deliveries follow it to its end.  In
    the module as it stands, a job whose four deliveries go to four
    processes with empty pools fails four times, with retries after
    [factor ** 0 * 60], [factor ** 1 * 60] and [factor ** 2 * 60] seconds,
    and the task ends FAILED with retry_count four higher than at the
    start. *)
Theorem failed_delivery_bookkeeping (env : WorkerEnv) (pid : Pid) (retries : Z)
    (tid : UUID) (force : bool) (w w1 : World) (task : Task) (exc : Exception) :
  tasks w !! tid = Some task ->
  _generate_draft_async env pid tid force w = (w1, inl exc) ->
  pid ∉ pooled w1 ->
  let run := generate_ai_draft env pid retries tid force w in
  tasks run.1 !! tid = Some (failed_with (str_exc exc) task)
  /\ run.2 =
       (if bool_decide (retries < 3)
        then Retry exc (float_pow env (DRAFT_RETRY_BACKOFF_FACTOR (settings env)) retries
                        * float_of_Z 60)%float
        else Raise exc)
  /\ (forall (pids : list Pid) (w0 : World),
        (length (deliveries env pids 0 tid force w0).2 <= 4)%nat
        /\ deliveries env pids 0 tid force w0
           = deliveries env (take 4 pids) 0 tid force w0)
  /\ (forall (w0 : World) (task0 : Task) (p1 p2 p3 p4 : Pid),
        selectinload_bound env = false ->
        tasks w0 !! tid = Some task0 ->
        NoDup [p1; p2; p3; p4] ->
        (forall p, p ∈ [p1; p2; p3; p4] -> p ∉ pooled w0) ->
        let all := deliveries env [p1; p2; p3; p4] 0 tid force w0 in
        all.2 = [Retry name_error (backoff env 0); Retry name_error (backoff env 1);
                 Retry name_error (backoff env 2); Raise name_error]
        /\ exists final,
             tasks all.1 !! tid = Some final
             /\ draft_status final = FAILED
             /\ last_error final = Some (str_exc name_error)
             /\ retry_count final = retry_count task0 + 4).
Proof.
  intros Ht Hrun Hp run. subst run.
  pose proof (failed_generation_without_connection env pid tid force w w1 exc Hrun Hp)
    as Htasks.
  assert (Ht1 : tasks w1 !! tid = Some task) by (by rewrite Htasks).
  split; [|split; [|split]].
  - unfold generate_ai_draft, _update_task_failed. rewrite Hrun.
    rewrite run_with_session_fresh by exact Hp. cbn [fst snd].
    assert (Hfin : tasks (set_pooled (fun s => {[pid]} ∪ s)
                            (failed_update tid (str_exc exc) w1)) !! tid
                   = Some (failed_with (str_exc exc) task))
      by exact (failed_update_task tid _ w1 task Ht1).
    by destruct (bool_decide (retries < max_retries)).
  - unfold generate_ai_draft, _update_task_failed. rewrite Hrun.
    rewrite run_with_session_fresh by exact Hp. cbn [fst snd].
    unfold max_retries. by destruct (bool_decide (retries < 3)).
  - intros pids w0. apply (deliveries_bound env tid force 3). unfold max_retries. lia.
  - intros w0 task0 p1 p2 p3 p4 Hs Ht0 Hnd Hfresh all. subst all.
    destruct (four_fresh_processes p1 p2 p3 p4 (pooled w0) Hnd Hfresh)
      as (H1 & H2 & H3 & H4).
    cbn [deliveries].
    rewrite (shipped_delivery_fresh env Hs) by exact H1.
    rewrite bool_decide_eq_true_2 by lia.
    rewrite (shipped_delivery_fresh env Hs) by exact H2.
    rewrite bool_decide_eq_true_2 by lia.
    rewrite (shipped_delivery_fresh env Hs) by exact H3.
    rewrite bool_decide_eq_true_2 by lia.
    rewrite (shipped_delivery_fresh env Hs) by exact H4.
    rewrite bool_decide_eq_false_2 by lia.
    cbn [fst snd]. split; [reflexivity|].
    exists (failed_with (str_exc name_error)
              (failed_with (str_exc name_error)
                 (failed_with (str_exc name_error)
                    (failed_with (str_exc name_error) task0)))).
    split.
    + simpl. rewrite !lookup_alter_eq, Ht0. reflexivity.
    + simpl. repeat split; lia.
Qed.

Lemma failed_delivery_bookkeeping_witness :
  let run := generate_ai_draft Fixtures.shipped 0%nat 0 Fixtures.T1 false Fixtures.one_task in
  tasks run.1 !! Fixtures.T1 =
    Some (mkTask 100%nat Fixtures.project None AWAITING_DRAFT FAILED 0 true
            (Some "name 'selectinload' is not defined") 1)
  /\ run.2 = Retry name_error 60%float.
Proof.
  intros run.
  destruct (failed_delivery_bookkeeping Fixtures.shipped 0%nat 0 Fixtures.T1 false
              Fixtures.one_task Fixtures.one_task
              (mkTask 100%nat Fixtures.project None AWAITING_DRAFT QUEUED 0 true None 0)
              name_error)
    as (H1 & H2 & _).
  - vm_compute. reflexivity.
  - reflexivity.
  - apply not_elem_of_empty.
  - split; [exact H1 | exact H2].
Defined.

(** ** Reuse across tasks *)

(** C3, on the module as it stands.  Two tasks whose tables yield the same
    prompt are delivered one after the other without force.  Neither
    delivery returns: each raises at line 110, before the prompt is built
    or its hash taken.  No request is sent to the provider and no draft is
    stored, so no draft is reused.  Delivered to two processes with empty
    pools, each task is marked FAILED with the text of the NameError and a
    retry is raised after [factor ** 0 * 60] seconds. *)
Theorem identical_prompts_get_no_draft (env : WorkerEnv) (w : World)
    (t1 t2 : UUID) (task1 task2 : Task) (s1 s2 : TableSchema) (p1 p2 : Pid) :
  selectinload_bound env = false ->
  t1 <> t2 ->
  tasks w !! t1 = Some task1 ->
  tasks w !! t2 = Some task2 ->
  parsed_tables w !! table_id task1 = Some s1 ->
  parsed_tables w !! table_id task2 = Some s2 ->
  create_prompt s1 = create_prompt s2 ->
  let first := generate_ai_draft env p1 0 t1 false w in
  let second := generate_ai_draft env p2 0 t2 false first.1 in
  failed_outcome first.2 /\ failed_outcome second.2
  /\ ai_drafts second.1 = ai_drafts w
  /\ provider_log second.1 = provider_log w
  /\ ai_draft_of second.1 t1 = ai_draft_of w t1
  /\ ai_draft_of second.1 t2 = ai_draft_of w t2
  /\ (p1 ∉ pooled w -> p2 ∉ pooled w -> p1 <> p2 ->
      first.2 = Retry name_error (backoff env 0)
      /\ second.2 = Retry name_error (backoff env 0)
      /\ tasks second.1 !! t1 = Some (failed_with (str_exc name_error) task1)
      /\ tasks second.1 !! t2 = Some (failed_with (str_exc name_error) task2)).
Proof.
  intros Hs Hne Ht1 Ht2 _ _ _ first second. subst first second.
  pose proof (shipped_delivery env Hs p1 0 t1 false w) as (Hf1 & Hd1 & Hl1 & _).
  pose proof (shipped_delivery env Hs p2 0 t2 false
                (generate_ai_draft env p1 0 t1 false w).1) as (Hf2 & Hd2 & Hl2 & _).
  cbv zeta in *.
  split; [exact Hf1|]. split; [exact Hf2|].
  split; [by rewrite Hd2, Hd1|]. split; [by rewrite Hl2, Hl1|].
  split; [unfold ai_draft_of; by rewrite Hd2, Hd1|].
  split; [unfold ai_draft_of; by rewrite Hd2, Hd1|].
  intros Hp1 Hp2 Hpne.
  rewrite (shipped_delivery_fresh env Hs p1 0 t1 false w Hp1).
  rewrite bool_decide_eq_true_2 by lia. cbn [fst snd].
  rewrite (shipped_delivery_fresh env Hs p2 0 t2 false).
  2:{ simpl. rewrite not_elem_of_union, not_elem_of_singleton. split; [congruence|exact Hp2]. }
  rewrite bool_decide_eq_true_2 by lia. cbn [fst snd].
  split; [reflexivity|]. split; [reflexivity|]. simpl. split.
  - rewrite lookup_alter_ne by congruence. rewrite lookup_alter_eq, Ht1. reflexivity.
  - rewrite lookup_alter_eq, lookup_alter_ne by congruence. rewrite Ht2. reflexivity.
Qed.

Lemma identical_prompts_get_no_draft_witness :
  let first := generate_ai_draft Fixtures.shipped 1%nat 0 Fixtures.T1 false Fixtures.two_tasks in
  let second := generate_ai_draft Fixtures.shipped 2%nat 0 Fixtures.T2 false first.1 in
  Fixtures.table_a <> Fixtures.table_b
  /\ create_prompt Fixtures.table_a = create_prompt Fixtures.table_b
  /\ ai_drafts second.1 = []
  /\ provider_log second.1 = []
  /\ first.2 = Retry name_error (backoff Fixtures.shipped 0)
  /\ second.2 = Retry name_error (backoff Fixtures.shipped 0)
  /\ (draft_status <$> tasks second.1 !! Fixtures.T1) = Some FAILED
  /\ (draft_status <$> tasks second.1 !! Fixtures.T2) = Some FAILED.
Proof.
  intros first second.
  destruct (identical_prompts_get_no_draft Fixtures.shipped Fixtures.two_tasks
     Fixtures.T1 Fixtures.T2
     (mkTask 100%nat Fixtures.project None AWAITING_DRAFT QUEUED 0 true None 0)
     (mkTask 102%nat Fixtures.project None AWAITING_DRAFT QUEUED 0 true None 0)
     Fixtures.table_a Fixtures.table_b 1%nat 2%nat)
    as (_ & _ & Hd & Hl & _ & _ & Hfresh).
  - reflexivity.
  - discriminate.
  - vm_compute. reflexivity.
  - vm_compute. reflexivity.
  - vm_compute. reflexivity.
  - vm_compute. reflexivity.
  - vm_compute. reflexivity.
  - destruct Hfresh as (H1 & H2 & H3 & H4);
      [apply not_elem_of_empty | apply not_elem_of_empty | discriminate |].
    fold first second in Hd, Hl, H1, H2, H3, H4.
    split; [discriminate|]. split; [vm_compute; reflexivity|].
    split; [exact Hd|]. split; [exact Hl|]. split; [exact H1|]. split; [exact H2|].
    rewrite H3, H4. split; reflexivity.
Defined.

(** ** Generation on a task that already has a draft *)

(** C4, on the module as it stands.  A task with draft_status SUCCEEDED
    and a draft is delivered without force, to a process whose pool is
    empty.  The delivery is not a no-op: it raises at line 110, the handler
    marks the task FAILED, stores the text of the NameError as last_error,
    adds one to retry_count, and a retry is raised.  The draft rows stay as
    they were.  The second delivery, when the same process takes it,
    raises from the handler and writes nothing more; when a process with
    an empty pool takes it, it counts a second failure. *)
Theorem delivery_on_existing_draft_marks_failed (env : WorkerEnv) (pid : Pid)
    (tid : UUID) (w : World) (task : Task) (d : AIDraft) :
  selectinload_bound env = false ->
  tasks w !! tid = Some task ->
  draft_status task = SUCCEEDED ->
  ai_draft_of w tid = Some d ->
  pid ∉ pooled w ->
  let once := generate_ai_draft env pid 0 tid false w in
  once.2 = Retry name_error (backoff env 0)
  /\ tasks once.1 !! tid =
       Some (mkTask (table_id task) (project_id task) (assigned_to task) (status task)
                    FAILED (priority task) (allocation_hold task)
                    (Some "name 'selectinload' is not defined") (retry_count task + 1))
  /\ ai_drafts once.1 = ai_drafts w
  /\ provider_log once.1 = provider_log w
  /\ (let twice := generate_ai_draft env pid 1 tid false once.1 in
      twice.2 = Raise (RuntimeError (loop_error_text env))
      /\ tasks twice.1 = tasks once.1
      /\ ai_drafts twice.1 = ai_drafts w)
  /\ (forall pid', pid' ∉ pooled w -> pid' <> pid ->
      let twice := generate_ai_draft env pid' 1 tid false once.1 in
      twice.2 = Retry name_error (backoff env 1)
      /\ (retry_count <$> tasks twice.1 !! tid) = Some (retry_count task + 2)
      /\ ai_drafts twice.1 = ai_drafts w).
Proof.
  intros Hs Ht _ _ Hp once. subst once.
  rewrite (shipped_delivery_fresh env Hs pid 0 tid false w Hp).
  rewrite bool_decide_eq_true_2 by lia. cbn [fst snd].
  split; [reflexivity|]. split.
  { simpl. rewrite lookup_alter_eq, Ht. reflexivity. }
  split; [reflexivity|]. split; [reflexivity|]. split.
  - cbv zeta. rewrite (shipped_delivery_stale env Hs pid 1 tid false).
    2:{ simpl. apply elem_of_union_l. by apply elem_of_singleton. }
    cbn [fst snd]. split; [reflexivity|].
    destruct (pool_drops_broken env); split; reflexivity.
  - intros pid' Hp' Hne. cbv zeta.
    rewrite (shipped_delivery_fresh env Hs pid' 1 tid false).
    2:{ simpl. rewrite not_elem_of_union, not_elem_of_singleton. split; assumption. }
    rewrite bool_decide_eq_true_2 by lia. cbn [fst snd].
    split; [reflexivity|]. split; [|reflexivity].
    simpl. rewrite !lookup_alter_eq, Ht. simpl. f_equal. lia.
Qed.

Lemma delivery_on_existing_draft_marks_failed_witness :
  let once := generate_ai_draft Fixtures.shipped 0%nat 0 Fixtures.T1 false Fixtures.drafted in
  tasks Fixtures.drafted !! Fixtures.T1 =
    Some (mkTask 100%nat Fixtures.project None READY_FOR_ANNOTATION SUCCEEDED 0 false None 0)
  /\ ai_drafts Fixtures.drafted = [Fixtures.draft_102]
  /\ once.2 = Retry name_error (backoff Fixtures.shipped 0)
  /\ tasks once.1 !! Fixtures.T1 =
    Some (mkTask 100%nat Fixtures.project None READY_FOR_ANNOTATION FAILED 0 false
            (Some "name 'selectinload' is not defined") 1).
Proof.
  intros once.
  destruct (delivery_on_existing_draft_marks_failed Fixtures.shipped 0%nat Fixtures.T1
              Fixtures.drafted
              (mkTask 100%nat Fixtures.project None READY_FOR_ANNOTATION SUCCEEDED
                      0 false None 0)
              Fixtures.draft_102)
    as (H1 & H2 & _).
  - reflexivity.
  - vm_compute. reflexivity.
  - reflexivity.
  - vm_compute. reflexivity.
  - apply not_elem_of_empty.
  - split; [vm_compute; reflexivity|]. split; [reflexivity|].
    split; [exact H1 | exact H2].
Defined.

(** ** The task after a successful generation *)

(** C5, on the module as it stands.  No delivery of the worker returns:
    each ends in a raise, with or without a retry, so there is no
    successful generation, on any of the three paths, and what the claim
    says of one holds of all there are.  What a delivery does write is one
    task at most, its own, marked FAILED; it writes neither status nor
    allocation_hold, and sets draft_status to no other value. *)
Theorem no_delivery_succeeds (env : WorkerEnv) (pid : Pid) (retries : Z) (tid : UUID)
    (force : bool) (w : World) :
  selectinload_bound env = false ->
  let run := generate_ai_draft env pid retries tid force w in
  failed_outcome run.2
  /\ (forall r task',
        run.2 = Return r -> tasks run.1 !! tid = Some task' ->
        status task' = READY_FOR_ANNOTATION /\ draft_status task' = SUCCEEDED
        /\ allocation_hold task' = false /\ last_error task' = None)
  /\ (forall t task',
        tasks run.1 !! t = Some task' ->
        exists task0,
          tasks w !! t = Some task0
          /\ (task' = task0 \/ (t = tid /\ task' = failed_with (str_exc name_error) task0))).
Proof.
  intros Hs run. subst run.
  pose proof (shipped_delivery env Hs pid retries tid force w) as (Hf & _).
  cbv zeta in *. split; [exact Hf|]. split.
  - intros r task' Hr. rewrite Hr in Hf. contradiction.
  - intros t task'. apply (shipped_delivery_writes env Hs).
Qed.

Lemma no_delivery_succeeds_witness :
  let w := Fixtures.put_task Fixtures.T1 generating Fixtures.one_task in
  let run := generate_ai_draft Fixtures.shipped 0%nat 0 Fixtures.T1 false w in
  (draft_status <$> tasks w !! Fixtures.T1) = Some GENERATING
  /\ failed_outcome run.2.
Proof.
  intros w run. split; [vm_compute; reflexivity|].
  exact (proj1 (no_delivery_succeeds Fixtures.shipped 0%nat 0 Fixtures.T1 false w
                  eq_refl)).
Defined.

(** ** The allocation hold *)

Lemma load_task_for_org_Some (w : World) (tid org : UUID) (task : Task) :
  load_task_for_org w tid org = Some task -> tasks w !! tid = Some task.
Proof.
  unfold load_task_for_org. destruct (tasks w !! tid) as [t|]; [|discriminate].
  simpl. destruct (projects w !! _); simpl; [|discriminate].
  destruct (bool_decide _); congruence.
Qed.

(** The generation route writes nothing: it answers 404, or reading
    [task.ai_draft] raises before its first check (line 194). *)
Lemma generate_draft_route_writes_nothing (tid org : UUID)
    (request : routes_drafts.GenerateDraftRequest) (w : World) :
  let run := routes_drafts.generate_draft tid request org w in
  run.1 = w
  /\ (run.2 = inl (Http
                     (mkHTTPException HTTP_404_NOT_FOUND TaskNotFoundOrDenied))
      \/ exists exc, run.2 = inl (Unhandled exc)).
Proof.
  unfold routes_drafts.generate_draft.
  destruct (load_task_for_org w tid org); simpl; eauto.
Qed.

(** In [H], a lookup of [tid] in a map where [t] was just inserted: the two
    keys are the same, or the insertion is skipped. *)
Ltac inserted_or_other t tid H :=
  let Heq := fresh "Heq" in
  destruct (decide (t = tid)) as [Heq|?];
  [ rewrite Heq in *; rewrite lookup_insert_eq in H
  | rewrite lookup_insert_ne in H by assumption ].

(** The module as it stands: no operation clears a hold. *)
Lemma apply_op_keeps_holds (env : WorkerEnv) (op : Op) (w : World) :
  selectinload_bound env = false ->
  (forall tid task, tasks w !! tid = Some task -> allocation_hold task = true) ->
  forall tid task, tasks (apply_op env op w) !! tid = Some task ->
                   allocation_hold task = true.
Proof.
  intros Hs Hinv tid task' Ht'.
  destruct op as [p td|pid retries t force|pid stale|t org|t req org|t u org un];
    simpl in Ht'.
  - (* creation writes a task with the hold set *)
    unfold create_table_task in Ht'.
    destruct (page td ≫= _); simpl in Ht'; [|by eapply Hinv].
    inserted_or_other (S (next_uuid w)) tid Ht'; [|by eapply Hinv].
    by injection Ht' as <-.
  - (* a delivery writes its own task at most, and not the hold *)
    destruct (shipped_delivery_writes env Hs pid retries t force w tid task' Ht')
      as (task0 & Ht0 & [->|[_ ->]]).
    + by eapply Hinv.
    + simpl. by eapply Hinv.
  - (* the clean-up writes last_error only *)
    unfold _cleanup_failed_tasks_async, run_with_session in Ht'.
    destruct (bool_decide (pid ∈ pooled w)).
    + assert (Hsame : tasks w !! tid = Some task')
        by (by destruct (pool_drops_broken env)).
      by eapply Hinv.
    + simpl in Ht'. rewrite map_lookup_imap in Ht'.
      destruct (tasks w !! tid) as [task0|] eqn:Ht0; simpl in Ht'; [|discriminate].
      injection Ht' as <-. specialize (Hinv tid task0 Ht0).
      by destruct (_ && _).
  - (* the manual retry sets the hold *)
    unfold retry_draft_generation in Ht'.
    destruct (load_task_for_org w t org) as [t0|]; simpl in Ht'; [|by eapply Hinv].
    destruct (bool_decide _); simpl in Ht'; [by eapply Hinv|].
    inserted_or_other t tid Ht'; [|by eapply Hinv].
    by injection Ht' as <-.
  - (* the generation route writes nothing *)
    rewrite (proj1 (generate_draft_route_writes_nothing t org req w)) in Ht'.
    by eapply Hinv.
  - (* assignment keeps the hold *)
    unfold assign_task in Ht'.
    destruct (load_task_for_org w t org) as [t0|] eqn:Hl; simpl in Ht'; [|by eapply Hinv].
    apply load_task_for_org_Some in Hl.
    destruct (_ && _); simpl in Ht'; [by eapply Hinv|].
    inserted_or_other t tid Ht'; [|by eapply Hinv].
    injection Ht' as <-. simpl. by eapply Hinv.
Qed.

Lemma run_ops_keeps_holds (env : WorkerEnv) (ops : list Op) :
  selectinload_bound env = false ->
  forall w,
    (forall tid task, tasks w !! tid = Some task -> allocation_hold task = true) ->
    forall tid task, tasks (run_ops env ops w) !! tid = Some task ->
                     allocation_hold task = true.
Proof.
  intros Hs. induction ops as [|op ops IH]; intros w Hinv; [exact Hinv|].
  simpl. apply IH. by apply apply_op_keeps_holds.
Qed.

(** C7, on the module as it stands.  Task creation and a successful manual
    retry write allocation_hold true, and no operation that writes a task
    (creation, a delivery of the worker, the clean-up, manual retry, the
    generation route, assignment; each with the stores it leaves when its
    commit is refused or its session fails, which are the stores before
    it) clears it: from a store where every task
    is held, such as the empty one, every task of every store reached is
    held.  So the hold is true whenever the task has no draft, it is false
    only with draft_status SUCCEEDED, and no task is QUEUED and not held. *)
Theorem allocation_hold_invariant (env : WorkerEnv) (ops : list Op) (w : World) :
  selectinload_bound env = false ->
  (forall tid task, tasks w !! tid = Some task -> allocation_hold task = true) ->
  (forall tid task,
     tasks (run_ops env ops w) !! tid = Some task ->
     allocation_hold task = true
     /\ (ai_draft_of (run_ops env ops w) tid = None -> allocation_hold task = true)
     /\ (allocation_hold task = false -> draft_status task = SUCCEEDED)
     /\ ~ (draft_status task = QUEUED /\ allocation_hold task = false))
  /\ (forall project table w0 tid,
        (create_table_task project table w0).2 = Some tid ->
        (allocation_hold <$> tasks (create_table_task project table w0).1 !! tid)
          = Some true)
  /\ (forall tid org w0 resp,
        (retry_draft_generation tid org w0).2 = inr resp ->
        (allocation_hold <$> tasks (retry_draft_generation tid org w0).1 !! tid)
          = Some true).
Proof.
  intros Hs Hinv. split; [|split].
  - intros tid task Ht.
    pose proof (run_ops_keeps_holds env ops Hs w Hinv tid task Ht) as Hh.
    split; [exact Hh|]. split; [intros _; exact Hh|].
    split; [rewrite Hh; discriminate|]. rewrite Hh. intros [_ ?]. discriminate.
  - intros project table w0 tid. unfold create_table_task.
    destruct (page table ≫= _); simpl; [|discriminate].
    intros [= <-]. by rewrite lookup_insert_eq.
  - intros tid org w0 resp. unfold retry_draft_generation.
    destruct (load_task_for_org w0 tid org); simpl; [|discriminate].
    destruct (bool_decide _); simpl; [discriminate|]. intros _.
    by rewrite lookup_insert_eq.
Qed.

Lemma allocation_hold_invariant_witness :
  let request := routes_drafts.mkGenerateDraftRequest true None None in
  let ops := [ OpCreate Fixtures.project Fixtures.table_a;
               OpDeliver 0%nat 0 Fixtures.T1 false;
               OpRequest Fixtures.T1 request Fixtures.org;
               OpRetry Fixtures.T1 Fixtures.org;
               OpAssign Fixtures.T1 (Some Fixtures.annotator) Fixtures.org true;
               OpDeliver 0%nat 0 Fixtures.T1 true ] in
  tasks (run_ops Fixtures.shipped ops Fixtures.empty_world) !! Fixtures.T1 =
    Some (mkTask 100%nat Fixtures.project (Some Fixtures.annotator) AWAITING_DRAFT QUEUED
                 0 true None 1)
  /\ allocation_hold
       (mkTask 100%nat Fixtures.project (Some Fixtures.annotator) AWAITING_DRAFT QUEUED
               0 true None 1) = true.
Proof.
  intros request ops.
  assert (Ht : tasks (run_ops Fixtures.shipped ops Fixtures.empty_world) !! Fixtures.T1 =
                 Some (mkTask 100%nat Fixtures.project (Some Fixtures.annotator)
                              AWAITING_DRAFT QUEUED 0 true None 1))
    by (vm_compute; reflexivity).
  split; [exact Ht|].
  refine (proj1 (proj1 (allocation_hold_invariant Fixtures.shipped ops Fixtures.empty_world
                          eq_refl _) Fixtures.T1 _ Ht)).
  intros tid task H. vm_compute in H. discriminate.
Defined.

(** ** Missing credentials *)

Lemma no_client_without_key (s : Settings) :
  key_missing s -> client (DraftService_init s) = false.
Proof. intros [H|H]; unfold DraftService_init; rewrite H; reflexivity. Qed.

(** C9, at the code.  When the provider key is unset or empty nothing
    checks it, when the service is built or later: the service has no
    client, and [generate_draft] raises nothing, sends nothing and returns
    the mock draft for every input (the text of [mock_text], prompt
    version v1.0, temperature 0.7, cost_usd 0.001, trace marked mock).  A
    delivery of the worker, in the module as it stands, ends as it does
    with a key: in a raise at line 110 or from the failure handler, per
    task, with no draft stored. *)
Theorem missing_key_returns_mock_draft (s : Settings) :
  key_missing s ->
  let svc := DraftService_init s in
  client svc = false
  /\ (forall p schema model temp max_tokens w,
        generate_draft svc p schema model temp max_tokens w
          = (w, inr (_generate_mock_draft svc schema model)))
  /\ (forall schema model,
        let r := _generate_mock_draft svc schema model in
        dr_text r = Some (mock_text schema)
        /\ dr_prompt_version r = "v1.0"
        /\ dr_temperature r = 0.7%float
        /\ dr_usage r !! "cost_usd" = Some (JFloat 0.001)
        /\ dr_trace r !! "mock" = Some (JBool true))
  /\ (forall env pid retries tid force w,
        settings env = s ->
        selectinload_bound env = false ->
        let run := generate_ai_draft env pid retries tid force w in
        ai_drafts run.1 = ai_drafts w
        /\ (run.2 = Retry name_error (backoff env retries)
            \/ run.2 = Raise name_error
            \/ run.2 = Raise (RuntimeError (loop_error_text env)))).
Proof.
  intros Hkey svc. pose proof (no_client_without_key _ Hkey) as Hc.
  split; [exact Hc|]. split; [|split].
  - intros. unfold generate_draft. subst svc. rewrite Hc. reflexivity.
  - intros schema model r. subst r. repeat split; reflexivity.
  - intros env pid retries tid force w _ Hs run. subst run.
    destruct (decide (pid ∈ pooled w)) as [Hp|Hp].
    + rewrite (shipped_delivery_stale env Hs pid retries tid force w Hp). simpl.
      split; [by destruct (pool_drops_broken env)|]. right. right. reflexivity.
    + rewrite (shipped_delivery_fresh env Hs pid retries tid force w Hp). simpl.
      split; [reflexivity|]. destruct (bool_decide (retries < 3)); auto.
Qed.

Lemma missing_key_returns_mock_draft_witness :
  let svc := DraftService_init default_settings in
  OPENAI_API_KEY default_settings = None
  /\ generate_draft svc Fixtures.failing_provider Fixtures.table_a "gpt-4o-mini"
                    0.7%float 1000 Fixtures.one_task
     = (Fixtures.one_task, inr (_generate_mock_draft svc Fixtures.table_a "gpt-4o-mini")).
Proof.
  intros svc. split; [reflexivity|].
  apply (proj1 (proj2 (missing_key_returns_mock_draft default_settings
                         (or_introl eq_refl)))).
Defined.

(** ** Cost *)

Lemma token_costs_lookup (s : Settings) (model : string) :
  default (mkRates 0.001 0.002) (token_costs (DraftService_init s) !! model)
    = mkRates (spec_rates model).1 (spec_rates model).2.
Proof.
  unfold DraftService_init, spec_rates. simpl.
  destruct (decide (model = "gpt-4o-mini")) as [->|H1].
  { rewrite lookup_insert_eq. reflexivity. }
  rewrite lookup_insert_ne by congruence. rewrite (bool_decide_eq_false_2 _ H1).
  destruct (decide (model = "gpt-4o")) as [->|H2].
  { rewrite lookup_insert_eq. reflexivity. }
  rewrite lookup_insert_ne by congruence. rewrite (bool_decide_eq_false_2 _ H2).
  destruct (decide (model = "gpt-3.5-turbo")) as [->|H3].
  { rewrite lookup_insert_eq. reflexivity. }
  rewrite lookup_insert_ne by congruence. rewrite (bool_decide_eq_false_2 _ H3).
  rewrite lookup_empty. reflexivity.
Qed.

(** C10.  For every model name and non-negative token counts [i], [o], the
    cost is [round(i/1000 * rate_in + o/1000 * rate_out, 6)] in binary64
    arithmetic, with the rates of the model when it is gpt-4o-mini, gpt-4o
    or gpt-3.5-turbo and (0.001, 0.002) for any other name; this is the
    [cost_usd] of the usage that [generate_draft] returns for a completion
    with these counts, and of the draft row the worker writes from it. *)
Theorem cost_follows_rate_table (s : Settings) (model : string) (i o : Z) :
  0 <= i -> 0 <= o ->
  let svc := DraftService_init s in
  let cost :=
    py_round (int_true_div i 1000 * (spec_rates model).1
              + int_true_div o 1000 * (spec_rates model).2)%float 6 in
  _calculate_cost svc model i o = cost
  /\ (forall (p : Provider) (table : TableSchema) (temp : float) (max_tokens : Z)
             (w : World) (content : option string) (total : Z),
        client svc = true ->
        p (length (provider_log w)) model (create_prompt table)
          = Completion content i o total ->
        exists r, (generate_draft svc p table model temp max_tokens w).2 = inr r
                  /\ dr_usage r !! "cost_usd" = Some (JFloat cost))
  /\ (forall (env : WorkerEnv) (tid : UUID) (table : TableSchema)
             (content : option string) (total : Z) (w : World),
        settings env = s -> DEFAULT_LLM_MODEL s = model ->
        cost_usd (completion_row env tid table content i o total w) = JFloat cost).
Proof.
  intros _ _ svc cost.
  assert (Hcost : _calculate_cost svc model i o = cost).
  { unfold _calculate_cost. subst svc. rewrite token_costs_lookup. reflexivity. }
  split; [exact Hcost|]. split.
  - intros p table temp max_tokens w content total Hc Hreply.
    unfold generate_draft. rewrite Hc. simpl. rewrite Hreply. simpl.
    eexists. split; [reflexivity|]. simpl. fold svc. rewrite Hcost. reflexivity.
  - intros env tid table content total w Hs Hm. unfold completion_row, cost_usd. simpl.
    rewrite Hs, Hm. fold svc. rewrite Hcost. reflexivity.
Qed.

Lemma cost_follows_rate_table_witness :
  _calculate_cost (DraftService_init default_settings) "gpt-4o-mini" 120 80 = 6.6e-05%float
  /\ _calculate_cost (DraftService_init default_settings) "some-other-model" 1000 1000
     = 0.003%float.
Proof.
  split.
  - rewrite (proj1 (cost_follows_rate_table default_settings "gpt-4o-mini" 120 80
                      ltac:(lia) ltac:(lia))).
    vm_compute. reflexivity.
  - rewrite (proj1 (cost_follows_rate_table default_settings "some-other-model" 1000 1000
                      ltac:(lia) ltac:(lia))).
    vm_compute. reflexivity.
Defined.

(** ** The QA review cycle *)

Lemma find_Some_elem {A} (f : A -> bool) (l : list A) (x : A) :
  List.find f l = Some x -> x ∈ l /\ f x = true.
Proof.
  intros H. apply List.find_some in H as [Hin Hf]. split; [|exact Hf].
  by apply list_elem_of_In.
Qed.

(** What an accepted check leaves behind: it is stored with the reviewer's
    comments and leaves the edits as they are.  With PASS the task moves to
    QA_DONE, and in that store every further edit on a draft of the task
    and every further check on an edit of the task is rejected with
    InvalidStateTransition.  With FAIL the task moves to REASSIGNED and the
    author of the failing edit is recorded as its previous annotator. *)
Lemma qa_check_moves_task (s s' : QA.Store) (eid rv : UUID) (res : QAResult)
    (cmts : option string) (qid : UUID) (e : HumanEdit) (d : AIDraft) (task : Task) :
  QA.edit_context (QA.world s) eid = Some (e, d, task) ->
  (he_id <$> QA.latest_edit (QA.world s) (he_draft_id e)) = Some eid ->
  QA.record_qa eid rv res cmts s = (s', inr qid) ->
  let tid := task_id d in
  qa_checks (QA.world s') =
    (qa_checks (QA.world s) ++ [mkQACheck qid eid rv res cmts None])%list
  /\ human_edits (QA.world s') = human_edits (QA.world s)
  /\ e ∈ human_edits (QA.world s')
  /\ match res with
     | PASS =>
         tasks (QA.world s') !! tid = Some (with_status QA_DONE task)
         /\ (forall did d' user new_text reason,
               QA.draft_by_id (QA.world s') did = Some d' -> task_id d' = tid ->
               QA.record_human_edit did user new_text reason s'
                 = (s', inl QA.InvalidStateTransition))
         /\ (forall eid' e' d' t' rv' res' cmts',
               QA.edit_context (QA.world s') eid' = Some (e', d', t') ->
               task_id d' = tid ->
               QA.record_qa eid' rv' res' cmts' s'
                 = (s', inl QA.InvalidStateTransition))
     | FAIL =>
         tasks (QA.world s') !! tid = Some (with_status REASSIGNED task)
         /\ QA.previous_annotator s' !! tid = Some (he_user_id e)
     end.
Proof.
  intros Hctx Hlatest Hrun tid. unfold QA.record_qa in Hrun. rewrite Hctx in Hrun.
  destruct (bool_decide (status task ≠ QA_PENDING)); [discriminate|].
  simpl in Hrun. rewrite (bool_decide_eq_true_2 _ Hlatest) in Hrun.
  assert (He : e ∈ human_edits (QA.world s)).
  { unfold QA.edit_context in Hctx.
    destruct (QA.edit_by_id (QA.world s) eid) as [e0|] eqn:Hfind; [|discriminate].
    simpl in Hctx. destruct (QA.draft_by_id _ _) as [d0|]; [|discriminate].
    simpl in Hctx. destruct (tasks _ !! _); [|discriminate]. simpl in Hctx.
    injection Hctx as -> _ _. by apply find_Some_elem in Hfind as [? _]. }
  assert (Hrows : qa_checks (QA.world s') =
            (qa_checks (QA.world s) ++ [mkQACheck qid eid rv res cmts None])%list
          /\ human_edits (QA.world s') = human_edits (QA.world s)).
  { destruct res; injection Hrun as <- <-; split; reflexivity. }
  destruct Hrows as [Hchecks Hedits].
  split; [exact Hchecks|]. split; [exact Hedits|].
  split; [rewrite Hedits; exact He|].
  destruct res; injection Hrun as Hs' _.
  - assert (Hdone : tasks (QA.world s') !! tid = Some (with_status QA_DONE task)).
    { rewrite <- Hs'. apply lookup_insert_eq. }
    split; [exact Hdone|]. split.
    + intros did d' user new_text reason Hd' Htid. unfold QA.record_human_edit.
      rewrite Hd', Htid, Hdone. reflexivity.
    + intros eid' e' d' t' rv' res' cmts' Hctx' Htid. unfold QA.record_qa.
      rewrite Hctx'.
      assert (Ht' : t' = with_status QA_DONE task).
      { unfold QA.edit_context in Hctx'.
        destruct (QA.edit_by_id _ eid') as [e0|]; [|discriminate]. simpl in Hctx'.
        destruct (QA.draft_by_id _ _) as [d0|]; [|discriminate]. simpl in Hctx'.
        destruct (_ !! task_id d0) as [t0|] eqn:Hl; [|discriminate]. simpl in Hctx'.
        injection Hctx' as _ -> ->. rewrite Htid, Hdone in Hl. by injection Hl. }
      rewrite Ht'. reflexivity.
  - rewrite <- Hs'. split; apply lookup_insert_eq.
Qed.


Lemma failed_delivery_keeps_access (w : World) (tid org : UUID) (task : Task)
    (msg : string) (f : gset Pid -> gset Pid) :
  load_task_for_org w tid org = Some task ->
  load_task_for_org (set_pooled f (failed_update tid msg w)) tid org
    = Some (failed_with msg task).
Proof.
  intros Hl. pose proof (load_task_for_org_Some w tid org task Hl) as Ht.
  unfold load_task_for_org in *. simpl. rewrite lookup_alter_eq, Ht in *. simpl in *.
  destruct (projects w !! project_id task) as [o|]; simpl in *; [|discriminate].
  by destruct (bool_decide (o = org)).
Qed.

(** C8, at the code.  A task that passed review is QA_DONE, and an edit on
    its draft is rejected.  A delivery of the worker for the task (in the
    module as it stands, to a process whose pool is empty) marks its draft
    status FAILED; the manual retry, which tests draft_status only, then
    answers 200 and writes status AWAITING_DRAFT over QA_DONE; after that
    the same edit is accepted. *)
Theorem qa_done_is_left_by_manual_retry (env : WorkerEnv) (pid : Pid) (s : QA.Store)
    (tid org : UUID) (task : Task) (did : UUID) (d : AIDraft) (user : UUID)
    (new_text : string) (reason : option string) :
  selectinload_bound env = false ->
  pid ∉ pooled (QA.world s) ->
  load_task_for_org (QA.world s) tid org = Some task ->
  status task = QA_DONE ->
  QA.draft_by_id (QA.world s) did = Some d ->
  task_id d = tid ->
  let delivered := generate_ai_draft env pid 0 tid false (QA.world s) in
  let retried := retry_draft_generation tid org delivered.1 in
  let s' := QA.mkStore retried.1 (QA.previous_annotator s) in
  QA.record_human_edit did user new_text reason s = (s, inl QA.InvalidStateTransition)
  /\ tasks delivered.1 !! tid = Some (failed_with (str_exc name_error) task)
  /\ retried.2 = inr (mkRetryResponse tid AWAITING_DRAFT QUEUED)
  /\ tasks retried.1 !! tid =
       Some (mkTask (table_id task) (project_id task) (assigned_to task)
                    AWAITING_DRAFT QUEUED (priority task) true None
                    (retry_count task + 1))
  /\ (QA.record_human_edit did user new_text reason s').2
       = inr (next_uuid (QA.world s)).
Proof.
  intros Hs Hp Hl Hst Hd Htid delivered retried s'.
  pose proof (load_task_for_org_Some _ _ _ _ Hl) as Ht.
  assert (Hdel : delivered =
            (set_pooled (fun p => {[pid]} ∪ p)
               (failed_update tid (str_exc name_error) (QA.world s)),
             Retry name_error (backoff env 0))).
  { subst delivered. rewrite (shipped_delivery_fresh env Hs pid 0 tid false _ Hp).
    by rewrite bool_decide_eq_true_2 by lia. }
  assert (Hret : retried =
            (set_tasks (insert tid (requeued (failed_with (str_exc name_error) task)))
                       delivered.1,
             inr (mkRetryResponse tid AWAITING_DRAFT QUEUED))).
  { subst retried. rewrite Hdel. cbn [fst].
    apply (proj2 (retry_draft_generation_guard_aux _ tid org
                    (failed_with (str_exc name_error) task)
                    (failed_delivery_keeps_access _ tid org task _ _ Hl))).
    reflexivity. }
  split.
  { unfold QA.record_human_edit. rewrite Hd, Htid, Ht.
    by rewrite bool_decide_eq_true_2 by exact Hst. }
  split.
  { rewrite Hdel. simpl. rewrite lookup_alter_eq, Ht. reflexivity. }
  split; [by rewrite Hret|]. split.
  { rewrite Hret. simpl. by rewrite lookup_insert_eq. }
  subst s'. rewrite Hret, Hdel. unfold QA.record_human_edit. cbn [QA.world fst].
  assert (Hd' : QA.draft_by_id
                  (set_tasks (insert tid (requeued (failed_with (str_exc name_error) task)))
                     (set_pooled (fun p => {[pid]} ∪ p)
                        (failed_update tid (str_exc name_error) (QA.world s)))) did
                = Some d) by exact Hd.
  rewrite Hd', Htid.
  assert (Hl' : tasks
                  (set_tasks (insert tid (requeued (failed_with (str_exc name_error) task)))
                     (set_pooled (fun p => {[pid]} ∪ p)
                        (failed_update tid (str_exc name_error) (QA.world s)))) !! tid
                = Some (requeued (failed_with (str_exc name_error) task)))
    by apply lookup_insert_eq.
  rewrite Hl'. reflexivity.
Qed.

Lemma qa_done_is_left_by_manual_retry_witness :
  let delivered :=
    generate_ai_draft Fixtures.shipped 0%nat 0 Fixtures.T1 false
                      (QA.world Fixtures.qa_done) in
  let retried := retry_draft_generation Fixtures.T1 Fixtures.org delivered.1 in
  let s' := QA.mkStore retried.1 (QA.previous_annotator Fixtures.qa_done) in
  (status <$> tasks (QA.world Fixtures.qa_done) !! Fixtures.T1) = Some QA_DONE
  /\ QA.record_human_edit 102%nat Fixtures.annotator "Another edit." None Fixtures.qa_done
     = (Fixtures.qa_done, inl QA.InvalidStateTransition)
  /\ (status <$> tasks retried.1 !! Fixtures.T1) = Some AWAITING_DRAFT
  /\ (QA.record_human_edit 102%nat Fixtures.annotator "Another edit." None s').2
     = inr 105%nat.
Proof.
  intros delivered retried s'.
  destruct (qa_done_is_left_by_manual_retry Fixtures.shipped 0%nat Fixtures.qa_done
              Fixtures.T1 Fixtures.org
              (mkTask 100%nat Fixtures.project None QA_DONE SUCCEEDED 0 false None 0)
              102%nat Fixtures.draft_102 Fixtures.annotator "Another edit." None)
    as (H1 & _ & _ & H4 & H5).
  - reflexivity.
  - apply not_elem_of_empty.
  - vm_compute. reflexivity.
  - reflexivity.
  - vm_compute. reflexivity.
  - reflexivity.
  - fold delivered retried s' in H4, H5.
    split; [vm_compute; reflexivity|]. split; [exact H1|].
    split; [rewrite H4; reflexivity|]. exact H5.
Defined.
